(** * The Outliers widget: Orange/widgets/data/owoutliers.py

    A shallow embedding of [OWOutliers].  The widget object is a record that
    is threaded through a small state-and-exception monad; Python exceptions
    keep the mutations made before the raise, so the monad returns the state
    on both outcomes.  The scikit-learn wrappers and [Table.transform] live
    outside this file: they are the fields of the [Backend] class, and every
    statement below is made for an arbitrary backend. *)

From Stdlib Require Import String ZArith QArith Bool Arith Lia List.
From Stdlib Require Import Permutation DecimalString.
Import ListNotations.

Set Implicit Arguments.
Local Open Scope nat_scope.

(* ================================================================== *)
(** ** Python results and exceptions *)

(** Exception classes, as the [except] clauses of [_get_outliers] tell them
    apart.  [ValueError] and [MemoryError] stand for the class and its
    subclasses; [OtherError] is any class that derives from neither. *)
Inductive PyExn : Type :=
| ValueError
| MemoryError
| IndexError
| AttributeError
| OtherError (cls : string).

Inductive PyResult (A : Type) : Type :=
| Ok (a : A)
| Raise (e : PyExn).

Arguments Ok {A} a.
Arguments Raise {A} e.

Definition res_bind {A B} (r : PyResult A) (f : A -> PyResult B) : PyResult B :=
  match r with
  | Ok a => f a
  | Raise e => Raise e
  end.

(* ================================================================== *)
(** ** Orange.data: variables, domains, tables *)

Inductive Var : Type :=
| ContinuousVariable (name : string)
| DiscreteVariable (name : string) (values : list string)
| StringVariable (name : string).

(** [Domain(attributes, class_vars, metas)] *)
Record Domain : Type := MkDomain {
  attributes : list Var;
  class_vars : list Var;
  metas : list Var
}.

(** A cell of the [metas] array (dtype object): a number or a string. *)
Inductive Cell : Type :=
| CNum (q : Q)
| CStr (s : string).

(** A table holds its three arrays row by row. *)
Record Table : Type := MkTable {
  domain : Domain;
  X : list (list Q);
  Y : list (list Q);
  Table_metas : list (list Cell)
}.

(** [len(table)] is the number of rows of [X]. *)
Definition Table_len (t : Table) : nat := length (X t).

(** Truth value of [self.data]: [None] is false, and a table, which defines
    [__len__] and no [__bool__], is true exactly when it has a row. *)
Definition Table_bool (d : option Table) : bool :=
  match d with
  | None => false
  | Some t => negb (Table_len t =? 0)
  end.

(** [amended_data.metas = m] *)
Definition with_Table_metas (m : list (list Cell)) (t : Table) : Table :=
  {| domain := domain t; X := X t; Y := Y t; Table_metas := m |}.

(** The three arrays have the same number of rows. *)
Definition Table_wf (t : Table) : Prop :=
  length (Y t) = length (X t) /\ length (Table_metas t) = length (X t).

(** The rows of a table: features, targets and metas of each instance. *)
Definition Table_rows (t : Table) : list (list Q * (list Q * list Cell)) :=
  combine (X t) (combine (Y t) (Table_metas t)).

(* ------------------------------------------------------------------ *)
(** *** numpy *)

(** [np.where(y == v)[0]]: the positions of [v] in [y], ascending. *)
Fixpoint where_from (i : nat) (y : list Z) (v : Z) : list nat :=
  match y with
  | [] => []
  | l :: y' =>
      if (l =? v)%Z then i :: where_from (S i) y' v
      else where_from (S i) y' v
  end.

Definition np_where_eq (y : list Z) (v : Z) : list nat := where_from 0 y v.

(** [a[ind]] for an array of rows and an index array: the rows at [ind], in
    the order of [ind]; an index past the end raises [IndexError]. *)
Fixpoint take_rows {A} (a : list A) (ind : list nat) : PyResult (list A) :=
  match ind with
  | [] => Ok []
  | i :: ind' =>
      match nth_error a i with
      | None => Raise IndexError
      | Some r => res_bind (take_rows a ind') (fun rs => Ok (r :: rs))
      end
  end.

(** [table[ind]]: the same domain, each array indexed by [ind]. *)
Definition Table_getitem (t : Table) (ind : list nat) : PyResult Table :=
  res_bind (take_rows (X t) ind) (fun x =>
  res_bind (take_rows (Y t) ind) (fun y =>
  res_bind (take_rows (Table_metas t) ind) (fun m =>
  Ok {| domain := domain t; X := x; Y := y; Table_metas := m |}))).

(** [mahal.reshape(n, 1)] of a one-dimensional array: one column of [n]
    rows; any other size raises [ValueError]. *)
Definition np_reshape_column (a : list Q) (n : nat) : PyResult (list (list Q)) :=
  if length a =? n then Ok (map (fun q => [q]) a) else Raise ValueError.

(** [np.hstack((metas, col))]: the rows side by side; arrays with different
    numbers of rows raise [ValueError]. *)
Fixpoint hstack_rows (m : list (list Cell)) (c : list (list Q)) : list (list Cell) :=
  match m, c with
  | r :: m', q :: c' => (r ++ map CNum q) :: hstack_rows m' c'
  | _, _ => []
  end.

Definition np_hstack (m : list (list Cell)) (c : list (list Q))
  : PyResult (list (list Cell)) :=
  if length m =? length c then Ok (hstack_rows m c) else Raise ValueError.

(** The rows of [a] whose label in [y] is [v], in the order of [a]. *)
Definition rows_labelled {A} (y : list Z) (v : Z) (a : list A) : list A :=
  map fst (filter (fun p => (snd p =? v)%Z) (combine a y)).

(** The table of the rows of [t] whose label in [y] is [v]. *)
Definition Table_labelled (y : list Z) (v : Z) (t : Table) : Table :=
  {| domain := domain t;
     X := rows_labelled y v (X t);
     Y := rows_labelled y v (Y t);
     Table_metas := rows_labelled y v (Table_metas t) |}.

(* ================================================================== *)
(** ** Learners and the backend *)

(** [SklLearner.preprocessors], a constant of Orange.base. *)
Inductive Preprocessors : Type := SklLearner_preprocessors.

(** The two learners the widget builds, with the keyword arguments it
    passes. *)
Inductive Learner : Type :=
| OneClassSVMLearner (gamma nu : Q) (preprocessors : Preprocessors)
| EllipticEnvelopeLearner (support_fraction : option Q) (contamination : Q).

(** What the widget calls outside this file: fitting ([learner(data)]),
    predicting ([model(data)]), [model.mahalanobis(X)] and
    [Table.transform(domain)].  Each may raise. *)
Class Backend : Type := {
  Model : Type;
  learner_call : Learner -> Table -> PyResult Model;
  model_call : Model -> Table -> PyResult (list Z);
  model_mahalanobis : Model -> list (list Q) -> PyResult (list Q);
  Table_transform : Table -> Domain -> PyResult Table
}.

(** The estimator labels every row of the table, with +1 or -1. *)
Definition predict_contract (B : Backend) : Prop :=
  forall m t y, model_call m t = Ok y ->
    length y = Table_len t /\ Forall (fun l => l = 1%Z \/ l = (-1)%Z) y.

(** [transform] to a domain with the same attributes and class variables
    returns a table of that domain with [X] and [Y] unchanged. *)
Definition transform_contract (B : Backend) : Prop :=
  forall t d t', Table_transform t d = Ok t' ->
    attributes d = attributes (domain t) ->
    class_vars d = class_vars (domain t) ->
    domain t' = d /\ X t' = X t /\ Y t' = Y t.

(* ================================================================== *)
(** ** The widget object *)

(** [OneClassSVM, Covariance = range(2)] *)
Definition OneClassSVM : Z := 0.
Definition Covariance : Z := 1.

Definition MAX_FEATURES : nat := 1500.

(** The [Setting] attributes. *)
Record Settings : Type := MkSettings {
  outlier_method : Z;
  nu : Z;
  gamma : Q;
  cont : Z;
  empirical_covariance : bool;
  support_fraction : Q
}.

(** The class-level defaults. *)
Definition default_settings : Settings :=
  {| outlier_method := OneClassSVM; nu := 50; gamma := 1 # 100; cont := 10;
     empirical_covariance := false; support_fraction := 1 |}.

(** Enabled state of the Covariance group's controls. *)
Record Controls : Type := MkControls {
  rb_cov : bool;
  l_cov : bool;
  cont_slider : bool;
  cb_emp_cov : bool;
  support_fraction_spin : bool
}.

(** Which messages are shown. *)
Record Messages : Type := MkMessages {
  Warning_disabled_cov : bool;
  Error_singular_cov : bool;
  Error_memory_error : bool
}.

(** [self.info]: a count, or one of the two sentinels. *)
Inductive Summary : Type :=
| NoInput
| NoOutput
| Count (n : nat).

(** The last value sent on each output channel. *)
Record Outputs : Type := MkOutputs {
  Outputs_inliers : option Table;
  Outputs_outliers : option Table
}.

Record OWOutliers : Type := MkWidget {
  settings : Settings;
  data : option Table;
  n_inliers : option nat;
  n_outliers : option nat;
  controls : Controls;
  messages : Messages;
  input_summary : Summary;
  output_summary : Summary;
  outputs : Outputs;
  (** every learner invocation made so far, oldest first *)
  fit_log : list (Learner * Table)
}.

(* ------------------------------------------------------------------ *)
(** *** Attribute assignment *)

Definition with_outlier_method (v : Z) (s : Settings) : Settings :=
  MkSettings v (nu s) (gamma s) (cont s) (empirical_covariance s) (support_fraction s).
Definition with_nu (v : Z) (s : Settings) : Settings :=
  MkSettings (outlier_method s) v (gamma s) (cont s) (empirical_covariance s) (support_fraction s).
Definition with_gamma (v : Q) (s : Settings) : Settings :=
  MkSettings (outlier_method s) (nu s) v (cont s) (empirical_covariance s) (support_fraction s).
Definition with_cont (v : Z) (s : Settings) : Settings :=
  MkSettings (outlier_method s) (nu s) (gamma s) v (empirical_covariance s) (support_fraction s).
Definition with_empirical_covariance (v : bool) (s : Settings) : Settings :=
  MkSettings (outlier_method s) (nu s) (gamma s) (cont s) v (support_fraction s).
Definition with_support_fraction (v : Q) (s : Settings) : Settings :=
  MkSettings (outlier_method s) (nu s) (gamma s) (cont s) (empirical_covariance s) v.

Definition with_disabled_cov (v : bool) (m : Messages) : Messages :=
  MkMessages v (Error_singular_cov m) (Error_memory_error m).
Definition with_singular_cov (v : bool) (m : Messages) : Messages :=
  MkMessages (Warning_disabled_cov m) v (Error_memory_error m).
Definition with_memory_error (v : bool) (m : Messages) : Messages :=
  MkMessages (Warning_disabled_cov m) (Error_singular_cov m) v.

Definition with_settings (f : Settings -> Settings) (w : OWOutliers) : OWOutliers :=
  MkWidget (f (settings w)) (data w) (n_inliers w) (n_outliers w) (controls w)
    (messages w) (input_summary w) (output_summary w) (outputs w) (fit_log w).
Definition with_data (v : option Table) (w : OWOutliers) : OWOutliers :=
  MkWidget (settings w) v (n_inliers w) (n_outliers w) (controls w)
    (messages w) (input_summary w) (output_summary w) (outputs w) (fit_log w).
Definition with_n_inliers (v : option nat) (w : OWOutliers) : OWOutliers :=
  MkWidget (settings w) (data w) v (n_outliers w) (controls w)
    (messages w) (input_summary w) (output_summary w) (outputs w) (fit_log w).
Definition with_n_outliers (v : option nat) (w : OWOutliers) : OWOutliers :=
  MkWidget (settings w) (data w) (n_inliers w) v (controls w)
    (messages w) (input_summary w) (output_summary w) (outputs w) (fit_log w).
Definition with_controls (v : Controls) (w : OWOutliers) : OWOutliers :=
  MkWidget (settings w) (data w) (n_inliers w) (n_outliers w) v
    (messages w) (input_summary w) (output_summary w) (outputs w) (fit_log w).
Definition with_messages (f : Messages -> Messages) (w : OWOutliers) : OWOutliers :=
  MkWidget (settings w) (data w) (n_inliers w) (n_outliers w) (controls w)
    (f (messages w)) (input_summary w) (output_summary w) (outputs w) (fit_log w).
Definition with_input_summary (v : Summary) (w : OWOutliers) : OWOutliers :=
  MkWidget (settings w) (data w) (n_inliers w) (n_outliers w) (controls w)
    (messages w) v (output_summary w) (outputs w) (fit_log w).
Definition with_output_summary (v : Summary) (w : OWOutliers) : OWOutliers :=
  MkWidget (settings w) (data w) (n_inliers w) (n_outliers w) (controls w)
    (messages w) (input_summary w) v (outputs w) (fit_log w).
Definition with_outputs (f : Outputs -> Outputs) (w : OWOutliers) : OWOutliers :=
  MkWidget (settings w) (data w) (n_inliers w) (n_outliers w) (controls w)
    (messages w) (input_summary w) (output_summary w) (f (outputs w)) (fit_log w).
Definition with_fit_log (v : list (Learner * Table)) (w : OWOutliers) : OWOutliers :=
  MkWidget (settings w) (data w) (n_inliers w) (n_outliers w) (controls w)
    (messages w) (input_summary w) (output_summary w) (outputs w) v.

(* ------------------------------------------------------------------ *)
(** *** The method monad: state that survives a raise *)

Definition M (A : Type) : Type := OWOutliers -> PyResult A * OWOutliers.

Definition ret {A} (a : A) : M A := fun w => (Ok a, w).

Definition bind {A B} (m : M A) (f : A -> M B) : M B :=
  fun w =>
    match m w with
    | (Ok a, w') => f a w'
    | (Raise e, w') => (Raise e, w')
    end.

Definition gets {A} (f : OWOutliers -> A) : M A := fun w => (Ok (f w), w).

Definition modify (f : OWOutliers -> OWOutliers) : M unit := fun w => (Ok tt, f w).

Definition lift {A} (r : PyResult A) : M A := fun w => (r, w).

(** [try: body / except ...: handler / else: k].  The handler table says
    which exceptions are caught; the [else] block runs after a body that
    did not raise and is not covered by the handlers. *)
Definition try_except_else {A B} (body : M A) (handler : PyExn -> option (M B))
  (k : A -> M B) : M B :=
  fun w =>
    match body w with
    | (Ok a, w') => k a w'
    | (Raise e, w') =>
        match handler e with
        | Some h => h w'
        | None => (Raise e, w')
        end
    end.

Declare Scope py_scope.
Delimit Scope py_scope with py.
Notation "x <- m ;; k" := (bind m (fun x => k))
  (at level 61, m at next level, right associativity) : py_scope.
Notation "m ;; k" := (bind m (fun _ => k))
  (at level 61, right associativity) : py_scope.
Local Open Scope py_scope.

(* ================================================================== *)
(** ** The methods of [OWOutliers] *)

(** [__init__]: no data, unknown counts, every control enabled, no message,
    both summaries at their sentinels.  The settings are the stored ones. *)
Definition init (s : Settings) : OWOutliers :=
  {| settings := s;
     data := None;
     n_inliers := None;
     n_outliers := None;
     controls := MkControls true true true true true;
     messages := MkMessages false false false;
     input_summary := NoInput;
     output_summary := NoOutput;
     outputs := MkOutputs None None;
     fit_log := [] |}.

Definition nu_changed : M unit :=
  modify (with_settings (with_outlier_method OneClassSVM)).

Definition gamma_changed : M unit :=
  modify (with_settings (with_outlier_method OneClassSVM)).

Definition cont_changed : M unit :=
  modify (with_settings (with_outlier_method Covariance)).

Definition support_fraction_changed : M unit :=
  modify (with_settings (with_outlier_method Covariance)).

Definition empirical_changed : M unit :=
  modify (with_settings (with_outlier_method Covariance)).

Definition enable_covariance (enable : bool) : M unit :=
  modify (with_controls (MkControls enable enable enable enable enable)).

(** [clear_messages], inherited from the widget base class. *)
Definition clear_messages : M unit :=
  modify (with_messages (fun _ => MkMessages false false false)).

(** The test of [enable_controls]:
    [self.data and len(self.data.domain.attributes) > self.MAX_FEATURES]. *)
Definition too_many_features (d : option Table) : bool :=
  match d with
  | Some t => Table_bool d && (MAX_FEATURES <? length (attributes (domain t)))
  | None => false
  end.

Definition enable_controls : M unit :=
  enable_covariance true ;;
  d <- gets data ;;
  if too_many_features d then
    modify (with_settings (with_outlier_method OneClassSVM)) ;;
    enable_covariance false ;;
    modify (with_messages (with_disabled_cov true))
  else ret tt.

(** [self.data] where the code uses it as a table. *)
Definition self_data : M Table :=
  d <- gets data ;;
  match d with
  | Some t => ret t
  | None => lift (Raise AttributeError)
  end.

Section Methods.
Context {B : Backend}.

Definition amended_data (model : Model) : M Table :=
  s <- gets settings ;;
  d <- self_data ;;
  if negb (outlier_method s =? Covariance)%Z then ret d
  else
    mahal <- lift (model_mahalanobis model (X d)) ;;
    mahal <- lift (np_reshape_column mahal (Table_len d)) ;;
    let attrs := attributes (domain d) in
    let classes := class_vars (domain d) in
    let new_metas := metas (domain d) ++ [ContinuousVariable "Mahalanobis"] in
    let new_domain := MkDomain attrs classes new_metas in
    amended <- lift (Table_transform d new_domain) ;;
    m <- lift (np_hstack (Table_metas d) mahal) ;;
    ret (with_Table_metas m amended).

(** The learner that [detect_outliers] builds from the settings. *)
Definition make_learner (s : Settings) : Learner :=
  if (outlier_method s =? OneClassSVM)%Z then
    OneClassSVMLearner (gamma s) (inject_Z (nu s) / 100)%Q
      SklLearner_preprocessors
  else
    EllipticEnvelopeLearner
      (if empirical_covariance s then Some (support_fraction s) else None)
      (inject_Z (cont s) / 100)%Q.

Definition detect_outliers : M (list Z * Table) :=
  s <- gets settings ;;
  let learner := make_learner s in
  d <- self_data ;;
  modify (fun w => with_fit_log (fit_log w ++ [(learner, d)]) w) ;;
  model <- lift (learner_call learner d) ;;
  y_pred <- lift (model_call model d) ;;
  amended <- amended_data model ;;
  ret (y_pred, amended).

Definition _get_outliers : M (option Table * option Table) :=
  modify (with_messages (with_singular_cov false)) ;;
  modify (with_messages (with_memory_error false)) ;;
  try_except_else detect_outliers
    (fun e =>
       match e with
       | ValueError =>
           Some (modify (with_messages (with_singular_cov true)) ;;
                 ret (None, None))
       | MemoryError =>
           Some (modify (with_messages (with_memory_error true)) ;;
                 ret (None, None))
       | _ => None
       end)
    (fun r =>
       let y_pred := fst r in
       let amended := snd r in
       let inliers_ind := np_where_eq y_pred 1 in
       let outliers_ind := np_where_eq y_pred (-1) in
       inliers <- lift (Table_getitem amended inliers_ind) ;;
       outliers <- lift (Table_getitem amended outliers_ind) ;;
       modify (with_n_inliers (Some (Table_len inliers))) ;;
       modify (with_n_outliers (Some (Table_len outliers))) ;;
       ret (Some inliers, Some outliers)).

Definition commit : M unit :=
  modify (with_n_inliers None) ;;
  modify (with_n_outliers None) ;;
  d <- gets data ;;
  r <- (if Table_bool d then _get_outliers else ret (None, None)) ;;
  let inliers := fst r in
  let outliers := snd r in
  let summary :=
    match inliers with
    | Some t => if Table_bool inliers then Count (Table_len t) else NoOutput
    | None => NoOutput
    end in
  modify (with_output_summary summary) ;;
  modify (with_outputs (fun o => MkOutputs inliers (Outputs_outliers o))) ;;
  modify (with_outputs (fun o => MkOutputs (Outputs_inliers o) outliers)).

(** [set_data]; the [check_sql_input] decorator only concerns SQL tables,
    which are not modelled. *)
Definition set_data (d : option Table) : M unit :=
  clear_messages ;;
  modify (with_data d) ;;
  modify (with_input_summary
            (match d with
             | Some t => if Table_bool d then Count (Table_len t) else NoOutput
             | None => NoOutput
             end)) ;;
  enable_controls ;;
  commit.

End Methods.

(* ------------------------------------------------------------------ *)
(** *** The report *)

Inductive ReportValue : Type :=
| RCount (n : nat)
| RInt (z : Z)
| RFloat (q : Q)
| RStr (s : string).

(** One [report_items(name, items)] call. *)
Definition ReportSection : Type := (string * list (string * ReportValue))%type.

(** [send_report]: the [report_items] calls it makes, in order; the early
    [return] makes none. *)
Definition send_report (w : OWOutliers) : PyResult (list ReportSection) :=
  match n_outliers w, n_inliers w with
  | Some n_out, Some n_in =>
      match data w with
      | None => Raise (OtherError "TypeError")
      | Some d =>
          let s := settings w in
          Ok [ ("Data"%string,
                [ ("Input instances"%string, RCount (Table_len d));
                  ("Inliers"%string, RCount n_in);
                  ("Outliers"%string, RCount n_out) ]);
               (if (outlier_method s =? 0)%Z then
                  ("Detection"%string,
                   [ ("Detection method"%string,
                      RStr "One class SVM with non-linear kernel (RBF)");
                     ("Regularization (nu)"%string, RInt (nu s));
                     ("Kernel coefficient"%string, RFloat (gamma s)) ])
                else
                  ("Detection"%string,
                   [ ("Detection method"%string, RStr "Covariance estimator");
                     ("Contamination"%string, RInt (cont s));
                     ("Support fraction"%string, RFloat (support_fraction s)) ])) ]
  end
  | _, _ => Ok []
  end.

(* ------------------------------------------------------------------ *)
(** *** What reaches the widget *)

(** The signal and the controls that [__init__] wires up.  A control bound
    to an attribute stores the new value and then calls its callback; the
    radio group is bound to [outlier_method] and has no callback; the
    button calls [commit].  The value carried by an event is one the
    control can show. *)
Inductive Event : Type :=
| Input_data (d : option Table)
| Click_rb_svm
| Click_rb_cov
| Move_nu_slider (v : Z)
| Spin_gamma (v : Q)
| Move_cont_slider (v : Z)
| Toggle_cb_emp_cov (v : bool)
| Spin_support_fraction (v : Q)
| Click_detect.

(** A disabled control takes no input. *)
Definition when_enabled (c : Controls -> bool) (m : M unit) : M unit :=
  en <- gets (fun w => c (controls w)) ;;
  if en then m else ret tt.

Section Events.
Context {B : Backend}.

Definition handle (ev : Event) : M unit :=
  match ev with
  | Input_data d => set_data d
  | Click_rb_svm => modify (with_settings (with_outlier_method 0))
  | Click_rb_cov =>
      when_enabled rb_cov (modify (with_settings (with_outlier_method 1)))
  | Move_nu_slider v => modify (with_settings (with_nu v)) ;; nu_changed
  | Spin_gamma v => modify (with_settings (with_gamma v)) ;; gamma_changed
  | Move_cont_slider v =>
      when_enabled cont_slider
        (modify (with_settings (with_cont v)) ;; cont_changed)
  | Toggle_cb_emp_cov v =>
      when_enabled cb_emp_cov
        (modify (with_settings (with_empirical_covariance v)) ;;
         empirical_changed)
  | Spin_support_fraction v =>
      when_enabled support_fraction_spin
        (modify (with_settings (with_support_fraction v)) ;;
         support_fraction_changed)
  | Click_detect => commit
  end.

(** The widget after a sequence of events.  An exception that leaves a
    handler is reported by the event loop; the object stays as the
    handler left it. *)
Fixpoint exec (evs : list Event) (w : OWOutliers) : OWOutliers :=
  match evs with
  | [] => w
  | ev :: evs' => exec evs' (snd (handle ev w))
  end.

(** The events that end in [commit]. *)
Definition is_run (ev : Event) : bool :=
  match ev with
  | Input_data _ | Click_detect => true
  | _ => false
  end.

(** The event ran a detection that returned and published its tables. *)
Definition run_succeeded (ev : Event) (w : OWOutliers) : bool :=
  is_run ev &&
  match handle ev w with
  | (Ok _, w') =>
      match Outputs_inliers (outputs w'), Outputs_outliers (outputs w') with
      | Some _, Some _ => true
      | _, _ => false
      end
  | (Raise _, _) => false
  end.

(** Whether the most recent run of [evs], started in [w], succeeded;
    [acc] is the answer for the runs before [evs]. *)
Fixpoint last_run_succeeded (evs : list Event) (w : OWOutliers) (acc : bool)
  : bool :=
  match evs with
  | [] => acc
  | ev :: evs' =>
      last_run_succeeded evs' (snd (handle ev w))
        (if is_run ev then run_succeeded ev w else acc)
  end.

End Events.

(** The event delivers a table. *)
Definition is_input (ev : Event) : bool :=
  match ev with
  | Input_data _ => true
  | _ => false
  end.

(** What holds of the widget between events.  At most one error is shown.
    If the last run succeeded ([ok]), the widget holds the table it ran on,
    the two published tables, their sizes as counts, and shows no error;
    otherwise both counts are unknown. *)
Definition widget_inv (ok : bool) (w : OWOutliers) : Prop :=
  (Error_singular_cov (messages w) = false \/
   Error_memory_error (messages w) = false) /\
  if ok then
    exists d inl outl,
      data w = Some d /\
      outputs w = MkOutputs (Some inl) (Some outl) /\
      n_inliers w = Some (Table_len inl) /\
      n_outliers w = Some (Table_len outl) /\
      Error_singular_cov (messages w) = false /\
      Error_memory_error (messages w) = false
  else
    n_inliers w = None /\ n_outliers w = None.

(** How the guard follows the table the widget holds: the covariance group
    is disabled and the warning shown exactly when [enable_controls] finds
    the table too wide, the method is then the one-class SVM, and no error
    is shown while there is no table with a row. *)
Definition guard_inv (w : OWOutliers) : Prop :=
  controls w =
    (if too_many_features (data w) then MkControls false false false false false
     else MkControls true true true true true) /\
  Warning_disabled_cov (messages w) = too_many_features (data w) /\
  (too_many_features (data w) = true ->
   outlier_method (settings w) = OneClassSVM) /\
  (Table_bool (data w) = false ->
   Error_singular_cov (messages w) = false /\
   Error_memory_error (messages w) = false).

(** A learner invocation of the log that is allowed: the table has a row,
    and the covariance estimator is fitted on at most 1500 attributes. *)
Definition fit_allowed (lt : Learner * Table) : Prop :=
  Table_len (snd lt) <> 0 /\
  forall sf c,
    fst lt = EllipticEnvelopeLearner sf c ->
    length (attributes (domain (snd lt))) <= MAX_FEATURES.

(* ------------------------------------------------------------------ *)
(** *** The ranges of the controls *)

(** The values the controls of [__init__] can show: the [nu] slider goes
    from 1 to 100, the kernel-coefficient spin box from 0.01 to 10, the
    contamination slider from 0 to 100 and the support-fraction spin box
    from 0.1 to 10. *)
Definition settings_in_range (s : Settings) : Prop :=
  (1 <= nu s <= 100)%Z /\
  (1 # 100 <= gamma s /\ gamma s <= 10)%Q /\
  (0 <= cont s <= 100)%Z /\
  (1 # 10 <= support_fraction s /\ support_fraction s <= 10)%Q.

(** The value of the event is one its control can show. *)
Definition event_in_range (ev : Event) : Prop :=
  match ev with
  | Move_nu_slider v => (1 <= v <= 100)%Z
  | Spin_gamma v => (1 # 100 <= v /\ v <= 10)%Q
  | Move_cont_slider v => (0 <= v <= 100)%Z
  | Spin_support_fraction v => (1 # 10 <= v /\ v <= 10)%Q
  | _ => True
  end.

(** What the ranges of the controls mean for the keyword arguments of a
    learner. *)
Definition learner_in_range (l : Learner) : Prop :=
  match l with
  | OneClassSVMLearner g n _ =>
      (1 # 100 <= g /\ g <= 10)%Q /\ (0 < n /\ n <= 1)%Q
  | EllipticEnvelopeLearner sf c =>
      (0 <= c /\ c <= 1)%Q /\
      match sf with
      | Some q => (1 # 10 <= q /\ q <= 10)%Q
      | None => True
      end
  end.

(* ================================================================== *)
(** ** A small backend and small tables, for running the model *)

Definition first_feature (r : list Q) : Q :=
  match r with
  | q :: _ => q
  | [] => 0
  end.

(** Fitting fails on fewer than two rows ([ValueError]), on more than four
    ([MemoryError]) and on rows without features (a [TypeError]); a row is
    an outlier when its first feature exceeds 10, and that feature is also
    its distance. *)
Definition sample_backend : Backend :=
  {| Model := Learner;
     learner_call := fun l t =>
       if Table_len t <? 2 then Raise ValueError
       else if 4 <? Table_len t then Raise MemoryError
       else match X t with
            | [] :: _ => Raise (OtherError "TypeError")
            | _ => Ok l
            end;
     model_call := fun _ t =>
       Ok (map (fun r => if Qle_bool (first_feature r) 10 then 1%Z else (-1)%Z)
             (X t));
     model_mahalanobis := fun _ x => Ok (map first_feature x);
     Table_transform := fun t d =>
       Ok {| domain := d; X := X t; Y := Y t;
             Table_metas := map (fun r => r ++ [CStr "?"]) (Table_metas t) |}
  |}.

(** The sample backend with a model that returns no distance at all. *)
Definition no_distance_backend : Backend :=
  {| Model := Learner;
     learner_call := @learner_call sample_backend;
     model_call := @model_call sample_backend;
     model_mahalanobis := fun _ _ => Ok [];
     Table_transform := @Table_transform sample_backend |}.

(** The sample backend with a model that returns one label too many. *)
Definition long_label_backend : Backend :=
  {| Model := Learner;
     learner_call := @learner_call sample_backend;
     model_call := fun m t =>
       res_bind (@model_call sample_backend m t) (fun y => Ok (y ++ [1%Z]));
     model_mahalanobis := @model_mahalanobis sample_backend;
     Table_transform := @Table_transform sample_backend |}.

Definition sample_domain : Domain :=
  MkDomain [ContinuousVariable "width"; ContinuousVariable "height"]
    [DiscreteVariable "kind" ["a"; "b"]%string]
    [StringVariable "tag"].

(** Three rows; the second one is far out. *)
Definition sample_table : Table :=
  {| domain := sample_domain;
     X := [[1; 2]; [50; 3]; [2; 2]]%Q;
     Y := [[0]; [1]; [0]]%Q;
     Table_metas := [[CStr "p"]; [CStr "q"]; [CStr "r"]] |}.

(** One row: too few for the sample backend to fit. *)
Definition single_row_table : Table :=
  {| domain := sample_domain;
     X := [[1; 2]]%Q;
     Y := [[0]]%Q;
     Table_metas := [[CStr "p"]] |}.

(** Five rows: too many for the sample backend. *)
Definition five_row_table : Table :=
  {| domain := sample_domain;
     X := [[1; 2]; [50; 3]; [2; 2]; [3; 3]; [4; 4]]%Q;
     Y := [[0]; [1]; [0]; [0]; [1]]%Q;
     Table_metas := [[CStr "p"]; [CStr "q"]; [CStr "r"]; [CStr "s"]; [CStr "t"]] |}.

(** Two rows, both far out. *)
Definition far_table : Table :=
  {| domain := sample_domain;
     X := [[50; 3]; [60; 4]]%Q;
     Y := [[1]; [1]]%Q;
     Table_metas := [[CStr "q"]; [CStr "u"]] |}.

(** Two rows over a domain without attributes. *)
Definition featureless_table : Table :=
  {| domain := MkDomain [] [] [];
     X := [[]; []];
     Y := [[]; []];
     Table_metas := [[]; []] |}.

Definition feature_name (i : nat) : string :=
  ("f" ++ NilEmpty.string_of_uint (Nat.to_uint i))%string.

(** A domain with [n] continuous attributes. *)
Definition wide_domain (n : nat) : Domain :=
  MkDomain (map (fun i => ContinuousVariable (feature_name i)) (seq 0 n)) [] [].

(** 1501 attributes and no row. *)
Definition wide_empty_table : Table :=
  {| domain := wide_domain 1501; X := []; Y := []; Table_metas := [] |}.


(** The stored settings of a widget whose user chose the covariance
    estimator. *)
Definition covariance_settings : Settings :=
  with_outlier_method Covariance default_settings.

(** A widget that holds a table and has not run yet. *)
Definition loaded (s : Settings) (t : Table) : OWOutliers :=
  with_data (Some t) (init s).

(** [sample_table] with the distance column of the sample backend. *)
Definition sample_amended : Table :=
  {| domain :=
       MkDomain (attributes sample_domain) (class_vars sample_domain)
         [StringVariable "tag"; ContinuousVariable "Mahalanobis"];
     X := X sample_table;
     Y := Y sample_table;
     Table_metas :=
       [[CStr "p"; CNum 1]; [CStr "q"; CNum 50]; [CStr "r"; CNum 2]] |}.

(* ================================================================== *)
(** ** Facts about index arrays and labelled rows *)

Lemma rows_labelled_nil_l (A : Type) (y : list Z) (v : Z) :
  rows_labelled y v (@nil A) = [].
Proof. reflexivity. Qed.

Lemma rows_labelled_cons (A : Type) (l : Z) (y : list Z) (v : Z) (r : A)
  (a : list A) :
  rows_labelled (l :: y) v (r :: a) =
  if (l =? v)%Z then r :: rows_labelled y v a else rows_labelled y v a.
Proof.
  unfold rows_labelled; simpl.
  destruct (l =? v)%Z; reflexivity.
Qed.

Section Labelled.
Variable A : Type.

Lemma skipn_nth_error (a : list A) (k : nat) (r : A) :
  nth_error a k = Some r -> skipn k a = r :: skipn (S k) a.
Proof.
  revert a; induction k as [|k IH]; intros [|x a] H; simpl in *;
    try discriminate.
  - now inversion H.
  - now apply IH.
Qed.

(** The indexing does not raise when every position is inside the array. *)
Lemma take_rows_where_ok (v : Z) (y : list Z) :
  forall (k : nat) (a : list A),
    k + length y <= length a ->
    take_rows a (where_from k y v) = Ok (rows_labelled y v (skipn k a)).
Proof.
  induction y as [|l y IH]; intros k a H; simpl in *.
  - unfold rows_labelled. now rewrite combine_nil.
  - destruct (nth_error a k) as [r0|] eqn:En.
    2:{ apply nth_error_None in En. lia. }
    rewrite (skipn_nth_error _ _ En), rows_labelled_cons.
    destruct (l =? v)%Z; simpl.
    + rewrite En, IH by lia. reflexivity.
    + apply IH. lia.
Qed.

(** Selecting by label commutes with pairing two arrays. *)
Lemma rows_labelled_combine (B' : Type) (v : Z) (y : list Z) :
  forall (a : list A) (b : list B'),
    rows_labelled y v (combine a b) =
    combine (rows_labelled y v a) (rows_labelled y v b).
Proof.
  induction y as [|l y IH]; intros a b.
  - unfold rows_labelled. now rewrite !combine_nil.
  - destruct a as [|x a]; [reflexivity|].
    destruct b as [|z b].
    + cbn [combine]. rewrite !rows_labelled_nil_l.
      now destruct (rows_labelled (l :: y) v (x :: a)).
    + simpl combine at 1. rewrite !rows_labelled_cons.
      destruct (l =? v)%Z; cbn [combine]; now rewrite IH.
Qed.

(** With labels +1 and -1 only, and a label for every row, the two
    selections together are the whole array. *)
Lemma rows_labelled_partition (y : list Z) :
  Forall (fun l => l = 1%Z \/ l = (-1)%Z) y ->
  forall a : list A,
    length a <= length y ->
    Permutation (rows_labelled y 1 a ++ rows_labelled y (-1) a) a.
Proof.
  induction 1 as [|l y Hl Hy IH]; intros a Hlen.
  - destruct a; simpl in *; [constructor | lia].
  - destruct a as [|r a]; [constructor|].
    simpl in Hlen. rewrite !rows_labelled_cons.
    destruct Hl as [-> | ->]; simpl.
    + constructor. apply IH. lia.
    + apply Permutation_sym, Permutation_cons_app, Permutation_sym.
      apply IH. lia.
Qed.

End Labelled.

(** [np.where] lists the positions whose label is [v]. *)
Lemma where_from_rows_labelled (v : Z) (y : list Z) :
  forall k, where_from k y v = rows_labelled y v (seq k (length y)).
Proof.
  induction y as [|l y IH]; intros k; [reflexivity|].
  simpl length. simpl seq. rewrite rows_labelled_cons. simpl.
  destruct (l =? v)%Z; now rewrite IH.
Qed.

Lemma where_from_In (v : Z) (y : list Z) :
  forall k i, In i (where_from k y v) ->
    k <= i /\ nth_error y (i - k) = Some v.
Proof.
  induction y as [|l y IH]; intros k i H; simpl in H; [contradiction|].
  assert (Hrec : In i (where_from (S k) y v) ->
                 k <= i /\ nth_error (l :: y) (i - k) = Some v).
  { intros H'. apply IH in H' as [Hle Hn]. split; [lia|].
    replace (i - k) with (S (i - S k)) by lia. exact Hn. }
  destruct (l =? v)%Z eqn:E; [|now apply Hrec].
  destruct H as [<- | H]; [|now apply Hrec].
  split; [lia|]. rewrite Nat.sub_diag. simpl.
  apply Z.eqb_eq in E. now subst.
Qed.

(** No position carries both labels. *)
Lemma np_where_disjoint (y : list Z) (i : nat) :
  In i (np_where_eq y 1) -> ~ In i (np_where_eq y (-1)).
Proof.
  intros H1 H2.
  apply where_from_In in H1 as [_ H1].
  apply where_from_In in H2 as [_ H2].
  rewrite H1 in H2. discriminate.
Qed.

Lemma np_where_partition (y : list Z) :
  Forall (fun l => l = 1%Z \/ l = (-1)%Z) y ->
  Permutation (np_where_eq y 1 ++ np_where_eq y (-1)) (seq 0 (length y)).
Proof.
  intros H. unfold np_where_eq. rewrite !where_from_rows_labelled.
  apply rows_labelled_partition; [exact H|].
  now rewrite length_seq.
Qed.

(* ================================================================== *)
(** ** How the methods run *)

Ltac py_unfold :=
  unfold try_except_else, self_data, bind, gets, modify, lift, ret in *.

(** Case analysis on the innermost scrutinee that is left. *)
Ltac case_matches :=
  repeat match goal with
         | |- context [match ?x with _ => _ end] =>
             lazymatch x with
             | context [match _ with _ => _ end] => fail
             | _ => destruct x eqn:?; simpl
             end
         end.

Section Running.
Context {B : Backend}.

(** [amended_data] reads the settings and the data and writes nothing. *)
Lemma amended_data_state (model : Model) (w : OWOutliers) :
  snd (amended_data model w) = w.
Proof.
  unfold amended_data; py_unfold; simpl. case_matches; reflexivity.
Qed.

Lemma amended_data_frame (model : Model) (w w1 : OWOutliers) :
  settings w1 = settings w -> data w1 = data w ->
  fst (amended_data model w1) = fst (amended_data model w).
Proof.
  intros Hs Hd. unfold amended_data; py_unfold; simpl.
  rewrite Hs, Hd. case_matches; reflexivity.
Qed.

(** The value of a detection: fit, predict, amend. *)
Lemma detect_outliers_value (w : OWOutliers) :
  fst (detect_outliers w) =
  match data w with
  | None => Raise AttributeError
  | Some d =>
      res_bind (learner_call (make_learner (settings w)) d) (fun model =>
      res_bind (model_call model d) (fun y_pred =>
      res_bind (fst (amended_data model w)) (fun amended =>
      Ok (y_pred, amended))))
  end.
Proof.
  unfold detect_outliers; py_unfold; simpl.
  destruct (data w) as [d|] eqn:Ed; [|reflexivity]. simpl.
  destruct (learner_call (make_learner (settings w)) d) as [model|e];
    [|reflexivity]. simpl.
  destruct (model_call model d) as [y|e]; [|reflexivity]. simpl.
  match goal with
  | |- context [amended_data model ?w1] =>
      rewrite (surjective_pairing (amended_data model w1)),
        (@amended_data_frame model w w1) by reflexivity
  end.
  destruct (fst (amended_data model w)); reflexivity.
Qed.

(** A detection only adds its learner invocation to the log. *)
Lemma detect_outliers_state (w : OWOutliers) :
  snd (detect_outliers w) =
  match data w with
  | None => w
  | Some d => with_fit_log (fit_log w ++ [(make_learner (settings w), d)]) w
  end.
Proof.
  unfold detect_outliers; py_unfold; simpl.
  destruct (data w) as [d|] eqn:Ed; [|reflexivity]. simpl.
  destruct (learner_call (make_learner (settings w)) d) as [model|e];
    [|reflexivity]. simpl.
  destruct (model_call model d) as [y|e]; [|reflexivity]. simpl.
  match goal with
  | |- context [amended_data model ?w1] =>
      pose proof (amended_data_state model w1) as Hst;
      destruct (amended_data model w1) as [[am|e] w2]; simpl in *; now subst
  end.
Qed.

(** A detection started in [w1] behaves as in any [w] with the same
    settings and data. *)
Lemma detect_outliers_at (w w1 : OWOutliers) :
  settings w1 = settings w -> data w1 = data w ->
  detect_outliers w1 =
  (fst (detect_outliers w),
   match data w with
   | None => w1
   | Some d => with_fit_log (fit_log w1 ++ [(make_learner (settings w), d)]) w1
   end).
Proof.
  intros Hs Hd.
  rewrite (surjective_pairing (detect_outliers w1)).
  rewrite detect_outliers_state, !detect_outliers_value, Hs, Hd.
  destruct (data w) as [d|] eqn:Ew; [|reflexivity].
  f_equal.
  destruct (learner_call (make_learner (settings w)) d) as [model|e];
    [|reflexivity]. simpl.
  destruct (model_call model d) as [y|e]; [|reflexivity]. simpl.
  rewrite (@amended_data_frame model w w1); congruence.
Qed.

Lemma Table_bool_len (d : Table) :
  Table_len d <> 0 -> Table_bool (Some d) = true.
Proof.
  intros H. simpl. now apply Bool.negb_true_iff, Nat.eqb_neq.
Qed.

Ltac commit_open :=
  unfold commit, _get_outliers; py_unfold;
  cbn [fst snd data with_n_inliers with_n_outliers with_messages].

(** [commit] leaves the settings, the data, the controls, the warning and
    the input summary alone, whatever the run does. *)
Lemma commit_frame (w : OWOutliers) :
  let w' := snd (commit w) in
  settings w' = settings w /\ data w' = data w /\
  controls w' = controls w /\ input_summary w' = input_summary w /\
  Warning_disabled_cov (messages w') = Warning_disabled_cov (messages w).
Proof.
  commit_open.
  destruct (Table_bool (data w)); [|simpl; now repeat split].
  rewrite (@detect_outliers_at w _) by reflexivity.
  destruct (fst (detect_outliers w)) as [[y am]|e]; cbn [fst snd].
  - destruct (data w) eqn:Ed;
      destruct (Table_getitem am (np_where_eq y 1));
      destruct (Table_getitem am (np_where_eq y (-1)));
      simpl; repeat split; auto.
  - destruct (data w) eqn:Ed; destruct e; simpl; repeat split; auto.
Qed.

(** A run that returns and indexes its tables publishes them. *)
Lemma commit_published (w : OWOutliers) (d : Table) (y : list Z)
  (am inl outl : Table) :
  data w = Some d -> Table_len d <> 0 ->
  fst (detect_outliers w) = Ok (y, am) ->
  Table_getitem am (np_where_eq y 1) = Ok inl ->
  Table_getitem am (np_where_eq y (-1)) = Ok outl ->
  exists w',
    commit w = (Ok tt, w') /\
    outputs w' = MkOutputs (Some inl) (Some outl) /\
    n_inliers w' = Some (Table_len inl) /\
    n_outliers w' = Some (Table_len outl) /\
    Error_singular_cov (messages w') = false /\
    Error_memory_error (messages w') = false /\
    output_summary w' =
      (if Table_len inl =? 0 then NoOutput else Count (Table_len inl)) /\
    fit_log w' = fit_log w ++ [(make_learner (settings w), d)].
Proof.
  intros Hd Hlen Hdet Hin Hout. commit_open.
  rewrite Hd, (@Table_bool_len d Hlen).
  rewrite (@detect_outliers_at w _) by (simpl; congruence).
  rewrite Hdet, Hd. cbn [fst snd]. rewrite Hin, Hout.
  eexists; split; [reflexivity|]. simpl.
  repeat split. now destruct (Table_len inl).
Qed.

(** A run whose table indexing raises lets the exception out. *)
Lemma commit_index_raises (w : OWOutliers) (y : list Z) (am : Table)
  (e : PyExn) :
  Table_bool (data w) = true ->
  fst (detect_outliers w) = Ok (y, am) ->
  (Table_getitem am (np_where_eq y 1) = Raise e \/
   (exists inl, Table_getitem am (np_where_eq y 1) = Ok inl) /\
   Table_getitem am (np_where_eq y (-1)) = Raise e) ->
  exists w',
    commit w = (Raise e, w') /\
    outputs w' = outputs w /\
    n_inliers w' = None /\ n_outliers w' = None /\
    Error_singular_cov (messages w') = false /\
    Error_memory_error (messages w') = false.
Proof.
  intros Hb Hdet Hraise. commit_open. rewrite Hb.
  rewrite (@detect_outliers_at w _) by reflexivity.
  rewrite Hdet. cbn [fst snd].
  destruct Hraise as [-> | [[inl ->] ->]];
    eexists; (split; [reflexivity|]); destruct (data w); simpl;
    now repeat split.
Qed.

(** A run that raises one of the two caught classes shows its error and
    publishes nothing. *)
Lemma commit_caught (w : OWOutliers) (e : PyExn) :
  Table_bool (data w) = true ->
  fst (detect_outliers w) = Raise e ->
  e = ValueError \/ e = MemoryError ->
  exists w',
    commit w = (Ok tt, w') /\
    outputs w' = MkOutputs None None /\
    n_inliers w' = None /\ n_outliers w' = None /\
    Error_singular_cov (messages w') =
      (match e with ValueError => true | _ => false end) /\
    Error_memory_error (messages w') =
      (match e with MemoryError => true | _ => false end) /\
    output_summary w' = NoOutput.
Proof.
  intros Hb Hdet He. commit_open. rewrite Hb.
  rewrite (@detect_outliers_at w _) by reflexivity.
  rewrite Hdet. cbn [fst snd].
  destruct He as [-> | ->];
    eexists; (split; [reflexivity|]); destruct (data w); simpl;
    now repeat split.
Qed.

(** A run that raises anything else lets it out, with nothing published
    and no error shown. *)
Lemma commit_uncaught (w : OWOutliers) (e : PyExn) :
  Table_bool (data w) = true ->
  fst (detect_outliers w) = Raise e ->
  e <> ValueError -> e <> MemoryError ->
  exists w',
    commit w = (Raise e, w') /\
    outputs w' = outputs w /\
    n_inliers w' = None /\ n_outliers w' = None /\
    Error_singular_cov (messages w') = false /\
    Error_memory_error (messages w') = false /\
    output_summary w' = output_summary w.
Proof.
  intros Hb Hdet Hv Hm. commit_open. rewrite Hb.
  rewrite (@detect_outliers_at w _) by reflexivity.
  rewrite Hdet. cbn [fst snd].
  destruct e; try congruence;
    eexists; (split; [reflexivity|]); destruct (data w); simpl;
    now repeat split.
Qed.

(** Without data, or with a table that has no row, nothing is run. *)
Lemma commit_no_run (w : OWOutliers) :
  Table_bool (data w) = false ->
  exists w',
    commit w = (Ok tt, w') /\
    outputs w' = MkOutputs None None /\
    n_inliers w' = None /\ n_outliers w' = None /\
    messages w' = messages w /\
    output_summary w' = NoOutput /\
    fit_log w' = fit_log w.
Proof.
  intros Hb. commit_open. rewrite Hb.
  eexists; split; [reflexivity|]. simpl. now repeat split.
Qed.

(** [set_data] is [commit] run in the state that the four statements
    before it leave. *)
Lemma set_data_commit (d : option Table) (w : OWOutliers) :
  exists w0,
    set_data d w = commit w0 /\
    data w0 = d /\
    settings w0 =
      (if too_many_features d
       then with_outlier_method OneClassSVM (settings w) else settings w) /\
    controls w0 =
      (if too_many_features d then MkControls false false false false false
       else MkControls true true true true true) /\
    messages w0 = MkMessages (too_many_features d) false false /\
    input_summary w0 =
      (match d with
       | Some t => if Table_bool d then Count (Table_len t) else NoOutput
       | None => NoOutput
       end) /\
    outputs w0 = outputs w /\ fit_log w0 = fit_log w.
Proof.
  unfold set_data, enable_controls, enable_covariance, clear_messages;
    py_unfold. cbn [data with_data with_input_summary with_controls with_messages].
  destruct (too_many_features d);
    eexists; (split; [reflexivity|]); simpl; now repeat split.
Qed.

End Running.

(* ================================================================== *)
(** ** Detection and the augmented table *)

Lemma hstack_rows_column (m : list (list Cell)) (c : list Q) :
  hstack_rows m (map (fun q => [q]) c) =
  map (fun p => fst p ++ [CNum (snd p)]) (combine m c).
Proof.
  revert c; induction m as [|r m IH]; intros [|q c]; simpl; try reflexivity.
  now rewrite IH.
Qed.

Lemma hstack_rows_length (m : list (list Cell)) (c : list (list Q)) :
  length m = length c -> length (hstack_rows m c) = length m.
Proof.
  revert c; induction m as [|r m IH]; intros [|q c] H; simpl in *;
    try discriminate; try reflexivity.
  f_equal. apply IH. now inversion H.
Qed.

(** Indexing a table by the positions of a label, when every array has a
    row for every label. *)
Lemma Table_getitem_where (t : Table) (y : list Z) (v : Z) :
  length y <= length (X t) -> length y <= length (Y t) ->
  length y <= length (Table_metas t) ->
  Table_getitem t (np_where_eq y v) =
  Ok {| domain := domain t;
        X := rows_labelled y v (X t);
        Y := rows_labelled y v (Y t);
        Table_metas := rows_labelled y v (Table_metas t) |}.
Proof.
  intros Hx Hy Hm. unfold Table_getitem, np_where_eq.
  rewrite !take_rows_where_ok by (simpl; assumption).
  reflexivity.
Qed.

Section Detection.
Context {B : Backend}.

(** What a detection that returned went through. *)
Lemma detect_outliers_inv (w : OWOutliers) (d : Table) (y : list Z)
  (am : Table) :
  data w = Some d ->
  fst (detect_outliers w) = Ok (y, am) ->
  exists model,
    learner_call (make_learner (settings w)) d = Ok model /\
    model_call model d = Ok y /\
    fst (amended_data model w) = Ok am.
Proof.
  intros Hd H. rewrite detect_outliers_value, Hd in H.
  destruct (learner_call (make_learner (settings w)) d) as [model|e] eqn:El;
    [|discriminate]. simpl in H.
  destruct (model_call model d) as [y'|e] eqn:Ep; [|discriminate].
  simpl in H.
  destruct (fst (amended_data model w)) as [am'|e] eqn:Ea; [|discriminate].
  simpl in H. inversion H; subst. now exists model.
Qed.

(** What [amended_data] returns, by method. *)
Lemma amended_data_inv (model : Model) (w : OWOutliers) (d am : Table) :
  data w = Some d ->
  fst (amended_data model w) = Ok am ->
  (outlier_method (settings w) <> Covariance /\ am = d) \/
  (outlier_method (settings w) = Covariance /\
   exists mahal t',
     model_mahalanobis model (X d) = Ok mahal /\
     length mahal = Table_len d /\
     length (Table_metas d) = length mahal /\
     Table_transform d
       (MkDomain (attributes (domain d)) (class_vars (domain d))
          (metas (domain d) ++ [ContinuousVariable "Mahalanobis"])) = Ok t' /\
     am = with_Table_metas
            (map (fun p => fst p ++ [CNum (snd p)])
               (combine (Table_metas d) mahal)) t').
Proof.
  intros Hd H. unfold amended_data in H; py_unfold. simpl in H.
  rewrite Hd in H. simpl in H.
  destruct (outlier_method (settings w) =? Covariance)%Z eqn:Em; simpl in H.
  2:{ left. apply Z.eqb_neq in Em. split; [exact Em|]. now inversion H. }
  right. apply Z.eqb_eq in Em. split; [exact Em|].
  destruct (model_mahalanobis model (X d)) as [mahal|e]; [|discriminate].
  simpl in H. unfold np_reshape_column in H.
  destruct (length mahal =? Table_len d) eqn:El; [|discriminate].
  apply Nat.eqb_eq in El. simpl in H.
  destruct (Table_transform d _) as [t'|e] eqn:Et; [|discriminate].
  simpl in H. unfold np_hstack in H. rewrite length_map in H.
  destruct (length (Table_metas d) =? length mahal) eqn:Eh; [|discriminate].
  apply Nat.eqb_eq in Eh. simpl in H. inversion H; subst am.
  exists mahal, t'. rewrite hstack_rows_column. now repeat split.
Qed.

(** Over a well-formed table, and with a [transform] that keeps its
    contract, the augmented table is well formed and has the rows of the
    input. *)
Lemma amended_data_wf (model : Model) (w : OWOutliers) (d am : Table) :
  transform_contract B -> Table_wf d ->
  data w = Some d ->
  fst (amended_data model w) = Ok am ->
  Table_wf am /\ Table_len am = Table_len d.
Proof.
  intros Ht [Hy Hm] Hd H.
  destruct (amended_data_inv _ _ Hd H) as [[_ ->] | [_ Hc]].
  - now repeat split.
  - destruct Hc as (mahal & t' & _ & Hl & Hml & Htr & ->).
    destruct (Ht _ _ _ Htr eq_refl eq_refl) as (_ & Hx & Hy').
    unfold Table_wf, Table_len. simpl.
    rewrite Hx, Hy', length_map, length_combine, <- Hml, Nat.min_id.
    now repeat split.
Qed.

End Detection.

(* ================================================================== *)
(** ** Properties of the widget *)

Lemma sample_transform_contract : transform_contract sample_backend.
Proof.
  intros t d t' H _ _. simpl in H. inversion H. simpl. now repeat split.
Qed.

(** C1. A successful detection run splits the (possibly augmented) table by
    predicted label.  When the estimator has labelled every row of a
    well-formed input with +1 or -1, [commit] publishes two tables: the
    inliers are the rows of the augmented table labelled +1 and the outliers
    those labelled -1, each in the order and with the domain of the
    augmented table; no row position is in both, and the two together are
    the rows of the augmented table, each exactly once. *)
Theorem commit_partitions_by_label (B : Backend) (w : OWOutliers) (d : Table)
  (y : list Z) (amended : Table) :
  transform_contract B -> Table_wf d ->
  data w = Some d -> Table_len d <> 0 ->
  fst (detect_outliers w) = Ok (y, amended) ->
  length y = Table_len d ->
  Forall (fun l => l = 1%Z \/ l = (-1)%Z) y ->
  let select v :=
    {| domain := domain amended;
       X := rows_labelled y v (X amended);
       Y := rows_labelled y v (Y amended);
       Table_metas := rows_labelled y v (Table_metas amended) |} in
  exists w',
    commit w = (Ok tt, w') /\
    outputs w' = MkOutputs (Some (select 1%Z)) (Some (select (-1)%Z)) /\
    Table_getitem amended (np_where_eq y 1) = Ok (select 1%Z) /\
    Table_getitem amended (np_where_eq y (-1)) = Ok (select (-1)%Z) /\
    Table_rows (select 1%Z) = rows_labelled y 1 (Table_rows amended) /\
    Table_rows (select (-1)%Z) = rows_labelled y (-1) (Table_rows amended) /\
    (forall i, In i (np_where_eq y 1) -> ~ In i (np_where_eq y (-1))) /\
    Permutation (np_where_eq y 1 ++ np_where_eq y (-1))
      (seq 0 (Table_len amended)) /\
    Permutation (Table_rows (select 1%Z) ++ Table_rows (select (-1)%Z))
      (Table_rows amended).
Proof.
  intros Ht Hwf Hd Hlen Hdet Hy Hlab select.
  destruct (detect_outliers_inv _ Hd Hdet) as (model & _ & _ & Ham).
  destruct (@amended_data_wf B model w d amended Ht Hwf Hd Ham)
    as [[HwY HwM] Hal].
  unfold Table_len in *.
  assert (Hg : forall v, Table_getitem amended (np_where_eq y v) = Ok (select v)).
  { intros v. apply Table_getitem_where; lia. }
  assert (Hrows : forall v,
             Table_rows (select v) = rows_labelled y v (Table_rows amended)).
  { intros v. unfold Table_rows. simpl. now rewrite !rows_labelled_combine. }
  destruct (@commit_published B w d y amended _ _ Hd Hlen Hdet
              (Hg 1%Z) (Hg (-1)%Z)) as (w' & Hc & Ho & _).
  exists w'. repeat split; auto.
  - apply np_where_disjoint.
  - unfold Table_len. rewrite Hal, <- Hy. now apply np_where_partition.
  - rewrite !Hrows. apply rows_labelled_partition; [exact Hlab|].
    unfold Table_rows. rewrite !length_combine. lia.
Qed.

Lemma commit_partitions_by_label_witness :
  exists w',
    @commit sample_backend (loaded covariance_settings sample_table)
      = (Ok tt, w') /\
    Outputs_inliers (outputs w') =
      Some {| domain := domain sample_amended;
              X := [[1; 2]; [2; 2]]%Q;
              Y := [[0]; [0]]%Q;
              Table_metas := [[CStr "p"; CNum 1]; [CStr "r"; CNum 2]] |} /\
    Outputs_outliers (outputs w') =
      Some {| domain := domain sample_amended;
              X := [[50; 3]]%Q;
              Y := [[1]]%Q;
              Table_metas := [[CStr "q"; CNum 50]] |}.
Proof.
  destruct (@commit_partitions_by_label sample_backend
              (loaded covariance_settings sample_table) sample_table
              [1; -1; 1]%Z sample_amended)
    as (w' & Hc & Ho & _).
  - exact sample_transform_contract.
  - split; reflexivity.
  - reflexivity.
  - vm_compute; lia.
  - vm_compute; reflexivity.
  - reflexivity.
  - repeat first [ apply Forall_nil
                 | apply Forall_cons;
                   [(left; reflexivity) || (right; reflexivity)|] ].
  - exists w'. split; [exact Hc|]. rewrite Ho. split; reflexivity.
Defined.

(** C3. After a successful run with the Covariance method the augmented
    table has the domain of the input with one more meta variable, the
    continuous variable "Mahalanobis"; its [X] and [Y] are those of the
    input and each row of its metas is the input's row followed by that
    row's distance, as returned by the fitted model.  After a successful run
    with the one-class SVM the augmented table is the input table. *)
Theorem amended_data_adds_mahalanobis (B : Backend) (w : OWOutliers)
  (d : Table) (y : list Z) (amended : Table) :
  transform_contract B ->
  data w = Some d ->
  fst (detect_outliers w) = Ok (y, amended) ->
  (outlier_method (settings w) = OneClassSVM -> amended = d) /\
  (outlier_method (settings w) = Covariance ->
   exists model mahal,
     learner_call (make_learner (settings w)) d = Ok model /\
     model_mahalanobis model (X d) = Ok mahal /\
     length mahal = Table_len d /\
     length (Table_metas d) = length mahal /\
     domain amended =
       MkDomain (attributes (domain d)) (class_vars (domain d))
         (metas (domain d) ++ [ContinuousVariable "Mahalanobis"]) /\
     X amended = X d /\ Y amended = Y d /\
     Table_metas amended =
       map (fun p => fst p ++ [CNum (snd p)]) (combine (Table_metas d) mahal)).
Proof.
  intros Ht Hd Hdet.
  destruct (detect_outliers_inv _ Hd Hdet) as (model & Hfit & _ & Ham).
  destruct (amended_data_inv _ _ Hd Ham) as [[Hm ->] | [Hm Hc]].
  - split; [reflexivity | contradiction].
  - split; [rewrite Hm; discriminate|]. intros _.
    destruct Hc as (mahal & t' & Hmah & Hl & Hml & Htr & ->).
    destruct (Ht _ _ _ Htr eq_refl eq_refl) as (Hdom & Hx & Hy).
    exists model, mahal. simpl. now repeat split.
Qed.

Lemma amended_data_adds_mahalanobis_witness :
  fst (@detect_outliers sample_backend (loaded covariance_settings sample_table))
    = Ok ([1; -1; 1]%Z, sample_amended) /\
  metas (domain sample_amended) =
    metas (domain sample_table) ++ [ContinuousVariable "Mahalanobis"] /\
  X sample_amended = X sample_table /\ Y sample_amended = Y sample_table.
Proof.
  assert (Hrun : fst (@detect_outliers sample_backend
                        (loaded covariance_settings sample_table))
                 = Ok ([1; -1; 1]%Z, sample_amended))
    by (vm_compute; reflexivity).
  destruct (@amended_data_adds_mahalanobis sample_backend
              (loaded covariance_settings sample_table) sample_table
              [1; -1; 1]%Z sample_amended sample_transform_contract
              eq_refl Hrun) as [_ Hcov].
  destruct (Hcov eq_refl) as (model & mahal & _ & _ & _ & _ & Hdom & Hx & Hy & _).
  split; [exact Hrun|]. rewrite Hdom. simpl. now repeat split.
Defined.

Lemma Table_bool_inv (o : option Table) :
  Table_bool o = true -> exists d, o = Some d /\ Table_len d <> 0.
Proof.
  destruct o as [d|]; [|discriminate]. simpl. intros H.
  exists d. split; [reflexivity|].
  now apply Nat.eqb_neq, Bool.negb_true_iff.
Qed.



(** C7, as the code has it.  The handlers go by exception class: only
    [ValueError] and [MemoryError] are turned into messages.  When the
    detection of a run raises an exception of any other class, that
    exception leaves [commit]: nothing is sent on the outputs and no error
    is shown.  The singular-covariance error is shown after [commit] exactly
    when the detection raised a [ValueError], whatever raised it and
    whichever method is selected, and the memory error exactly when it
    raised [MemoryError]. *)
Theorem unexpected_exception_propagates (B : Backend) (w : OWOutliers) :
  Table_bool (data w) = true ->
  (forall e,
     fst (detect_outliers w) = Raise e ->
     e <> ValueError -> e <> MemoryError ->
     fst (commit w) = Raise e /\ outputs (snd (commit w)) = outputs w) /\
  (Error_singular_cov (messages (snd (commit w))) = true <->
   fst (detect_outliers w) = Raise ValueError) /\
  (Error_memory_error (messages (snd (commit w))) = true <->
   fst (detect_outliers w) = Raise MemoryError).
Proof.
  intros Hb. split.
  { intros e Hdet Hv Hm.
    destruct (commit_uncaught _ Hb Hdet Hv Hm) as (w' & Hc & Ho & _).
    rewrite Hc. now split. }
  destruct (Table_bool_inv _ Hb) as (d & Hd & Hlen).
  destruct (fst (detect_outliers w)) as [[y am]|e] eqn:Hdet.
  - assert (Hflags : Error_singular_cov (messages (snd (commit w))) = false /\
                     Error_memory_error (messages (snd (commit w))) = false).
    { destruct (Table_getitem am (np_where_eq y 1)) as [inl|e1] eqn:E1.
      - destruct (Table_getitem am (np_where_eq y (-1))) as [outl|e2] eqn:E2.
        + destruct (commit_published _ Hd Hlen Hdet E1 E2)
            as (w' & Hc & _ & _ & _ & Hs & Hm & _).
          rewrite Hc. now split.
        + destruct (@commit_index_raises B w y am e2 Hb Hdet)
            as (w' & Hc & _ & _ & _ & Hs & Hm).
          { right. split; [now exists inl | exact E2]. }
          rewrite Hc. now split.
      - destruct (@commit_index_raises B w y am e1 Hb Hdet)
          as (w' & Hc & _ & _ & _ & Hs & Hm).
        { now left. }
        rewrite Hc. now split. }
    destruct Hflags as [-> ->]. split; split; discriminate.
  - destruct e;
      try (destruct (@commit_caught B w _ Hb Hdet)
             as (w' & Hc & _ & _ & _ & Hs & Hm & _);
           [solve [auto] | rewrite Hc; simpl; rewrite Hs, Hm;
                   split; split; intros; congruence]);
      (destruct (@commit_uncaught B w _ Hb Hdet)
         as (w' & Hc & _ & _ & _ & Hs & Hm & _);
       [discriminate | discriminate |
        rewrite Hc; simpl; rewrite Hs, Hm; split; split; intros; congruence]).
Qed.

Lemma unexpected_exception_propagates_witness :
  fst (@commit sample_backend (loaded default_settings featureless_table))
    = Raise (OtherError "TypeError") /\
  outputs (snd (@commit sample_backend (loaded default_settings featureless_table)))
    = MkOutputs None None.
Proof.
  destruct (@unexpected_exception_propagates sample_backend
              (loaded default_settings featureless_table) eq_refl)
    as [Hprop _].
  apply (Hprop (OtherError "TypeError")).
  - reflexivity.
  - discriminate.
  - discriminate.
Defined.

(** C7 fails as stated: the singular-covariance error is shown for failures
    that are not a singular covariance matrix.  With the covariance method,
    a fit and a prediction that both return are followed by the
    [ValueError] of [reshape], and the error is shown; with the one-class
    SVM, which estimates no covariance, a [ValueError] of the fit shows
    it too. *)
Lemma singular_error_for_other_failures :
  (exists model y,
     @learner_call no_distance_backend (make_learner covariance_settings)
       sample_table = Ok model /\
     @model_call no_distance_backend model sample_table = Ok y /\
     Error_singular_cov
       (messages
          (snd (@commit no_distance_backend
                  (loaded covariance_settings sample_table)))) = true) /\
  outlier_method default_settings = OneClassSVM /\
  Error_singular_cov
    (messages
       (snd (@commit sample_backend (loaded default_settings single_row_table))))
    = true.
Proof.
  split.
  - exists (EllipticEnvelopeLearner None (inject_Z 10 / 100)%Q), [1; -1; 1]%Z.
    split; [reflexivity|]. split; [reflexivity|].
    vm_compute. reflexivity.
  - split; [reflexivity|]. vm_compute. reflexivity.
Qed.

(** C5. The learner of a run is built from the stored settings: the
    one-class SVM gets [gamma] and [nu / 100]; the covariance estimator gets
    [cont / 100] and gets [support_fraction] only when
    [empirical_covariance] is set, and no support fraction otherwise.  That
    learner is the one fitted on the data, once per run. *)
Theorem detect_outliers_learner (B : Backend) (w : OWOutliers) (d : Table) :
  data w = Some d ->
  exists learner,
    fit_log (snd (detect_outliers w)) = fit_log w ++ [(learner, d)] /\
    fst (detect_outliers w) =
      res_bind (learner_call learner d) (fun model =>
      res_bind (model_call model d) (fun y_pred =>
      res_bind (fst (amended_data model w)) (fun amended =>
      Ok (y_pred, amended)))) /\
    (outlier_method (settings w) = OneClassSVM ->
     learner =
       OneClassSVMLearner (gamma (settings w))
         (inject_Z (nu (settings w)) / 100)%Q SklLearner_preprocessors) /\
    (outlier_method (settings w) = Covariance ->
     learner =
       EllipticEnvelopeLearner
         (if empirical_covariance (settings w)
          then Some (support_fraction (settings w)) else None)
         (inject_Z (cont (settings w)) / 100)%Q).
Proof.
  intros Hd. exists (make_learner (settings w)).
  rewrite detect_outliers_state, detect_outliers_value, Hd.
  repeat split.
  - intros Hm. unfold make_learner. now rewrite Hm.
  - intros Hm. unfold make_learner. now rewrite Hm.
Qed.

Lemma detect_outliers_learner_witness :
  fit_log (snd (@detect_outliers sample_backend
                  (loaded covariance_settings sample_table))) =
  [(EllipticEnvelopeLearner None (inject_Z 10 / 100)%Q, sample_table)].
Proof.
  destruct (@detect_outliers_learner sample_backend
              (loaded covariance_settings sample_table) sample_table eq_refl)
    as (learner & Hlog & _ & _ & Hcov).
  rewrite Hlog, (Hcov eq_refl). reflexivity.
Defined.

(** C6. Every callback of a parameter control sets the method to the group
    of its control, whatever the method was: [nu_changed] and
    [gamma_changed] select the one-class SVM; [cont_changed],
    [support_fraction_changed] and [empirical_changed] select the covariance
    estimator.  Moving a control stores its value and runs its callback; a
    control of the covariance group does so when it is enabled. *)
Theorem control_callbacks_select_method (B : Backend) (w : OWOutliers)
  (z : Z) (q : Q) (b : bool) :
  (outlier_method (settings (snd (nu_changed w))) = OneClassSVM /\
   outlier_method (settings (snd (gamma_changed w))) = OneClassSVM /\
   outlier_method (settings (snd (cont_changed w))) = Covariance /\
   outlier_method (settings (snd (support_fraction_changed w))) = Covariance /\
   outlier_method (settings (snd (empirical_changed w))) = Covariance) /\
  settings (snd (handle (Move_nu_slider z) w)) =
    with_outlier_method OneClassSVM (with_nu z (settings w)) /\
  settings (snd (handle (Spin_gamma q) w)) =
    with_outlier_method OneClassSVM (with_gamma q (settings w)) /\
  settings (snd (handle (Move_cont_slider z) w)) =
    (if cont_slider (controls w)
     then with_outlier_method Covariance (with_cont z (settings w))
     else settings w) /\
  settings (snd (handle (Spin_support_fraction q) w)) =
    (if support_fraction_spin (controls w)
     then with_outlier_method Covariance (with_support_fraction q (settings w))
     else settings w) /\
  settings (snd (handle (Toggle_cb_emp_cov b) w)) =
    (if cb_emp_cov (controls w)
     then with_outlier_method Covariance
            (with_empirical_covariance b (settings w))
     else settings w).
Proof.
  repeat split; try reflexivity.
  - simpl. unfold when_enabled; py_unfold. simpl.
    now destruct (cont_slider (controls w)).
  - simpl. unfold when_enabled; py_unfold. simpl.
    now destruct (support_fraction_spin (controls w)).
  - simpl. unfold when_enabled; py_unfold. simpl.
    now destruct (cb_emp_cov (controls w)).
Qed.

(** C9. A table without rows is handled as no table: [set_data] runs no
    detection, sends [None] on both outputs, leaves both counts unknown and
    the output summary at "no output", and returns the very widget that
    [set_data(None)] returns, except that [self.data] holds the empty
    table.  Triggering [commit] on that widget changes nothing. *)
Theorem empty_table_is_no_input (B : Backend) (w : OWOutliers) (t : Table) :
  Table_len t = 0 ->
  exists w0,
    set_data None w = (Ok tt, w0) /\
    set_data (Some t) w = (Ok tt, with_data (Some t) w0) /\
    commit (with_data (Some t) w0) = (Ok tt, with_data (Some t) w0) /\
    fit_log w0 = fit_log w /\
    outputs w0 = MkOutputs None None /\
    n_inliers w0 = None /\ n_outliers w0 = None /\
    output_summary w0 = NoOutput /\
    messages w0 = MkMessages false false false /\
    controls w0 = MkControls true true true true true.
Proof.
  intros Hlen.
  destruct t as [dom [|r x] y m]; [clear Hlen | discriminate].
  unfold set_data, commit, enable_controls, enable_covariance, clear_messages;
    py_unfold. simpl.
  eexists. split; [reflexivity|]. now repeat split.
Qed.

Lemma empty_table_is_no_input_witness :
  @set_data sample_backend (Some wide_empty_table) (init default_settings) =
  (Ok tt,
   with_data (Some wide_empty_table)
     (snd (@set_data sample_backend None (init default_settings)))).
Proof.
  destruct (@empty_table_is_no_input sample_backend (init default_settings)
              wide_empty_table eq_refl) as (w0 & Hnone & Hempty & _).
  rewrite Hempty, Hnone. reflexivity.
Defined.

(* ------------------------------------------------------------------ *)
(** *** The widget between events *)

Section Invariant.
Context {B : Backend}.

(** The controls only write settings. *)
Lemma handle_control (ev : Event) (w : OWOutliers) :
  is_run ev = false ->
  exists f, handle ev w = (Ok tt, with_settings f w).
Proof.
  assert (Hid : (Ok tt, w) = (Ok tt, with_settings (fun s => s) w))
    by now destruct w.
  destruct ev; try discriminate; intros _; simpl;
    unfold when_enabled, nu_changed, gamma_changed, cont_changed,
      support_fraction_changed, empirical_changed; py_unfold;
    cbn [fst snd controls with_settings].
  - now exists (with_outlier_method 0).
  - destruct (rb_cov (controls w)); [|now exists (fun s => s)].
    now exists (with_outlier_method 1).
  - now exists (fun s => with_outlier_method OneClassSVM (with_nu v s)).
  - now exists (fun s => with_outlier_method OneClassSVM (with_gamma v s)).
  - destruct (cont_slider (controls w)); [|now exists (fun s => s)].
    now exists (fun s => with_outlier_method Covariance (with_cont v s)).
  - destruct (cb_emp_cov (controls w)); [|now exists (fun s => s)].
    now exists (fun s => with_outlier_method Covariance
                           (with_empirical_covariance v s)).
  - destruct (support_fraction_spin (controls w)); [|now exists (fun s => s)].
    now exists (fun s => with_outlier_method Covariance
                           (with_support_fraction v s)).
Qed.

(** Whether a [commit] returned with both tables published. *)
Lemma commit_inv (w0 : OWOutliers) :
  Error_singular_cov (messages w0) = false \/
  Error_memory_error (messages w0) = false ->
  widget_inv
    (match commit w0 with
     | (Ok _, w') =>
         match Outputs_inliers (outputs w'), Outputs_outliers (outputs w') with
         | Some _, Some _ => true
         | _, _ => false
         end
     | (Raise _, _) => false
     end)
    (snd (commit w0)).
Proof.
  intros Hex.
  destruct (Table_bool (data w0)) eqn:Hb.
  2:{ destruct (commit_no_run _ Hb) as (w' & Hc & Ho & Hi & Hn & Hm & _).
      rewrite Hc, Ho. simpl. split; [now rewrite Hm | now split]. }
  destruct (Table_bool_inv _ Hb) as (d & Hd & Hlen).
  destruct (fst (detect_outliers w0)) as [[y am]|e] eqn:Hdet.
  - destruct (Table_getitem am (np_where_eq y 1)) as [inl|e1] eqn:E1.
    + destruct (Table_getitem am (np_where_eq y (-1))) as [outl|e2] eqn:E2.
      * destruct (commit_published _ Hd Hlen Hdet E1 E2)
          as (w' & Hc & Ho & Hi & Hn & Hs & Hm & _).
        pose proof (commit_frame w0) as (_ & Hdata & _).
        rewrite Hc in *. simpl in Hdata. rewrite Ho. simpl.
        split; [now left|].
        exists d, inl, outl. rewrite Hdata. now repeat split.
      * destruct (@commit_index_raises B w0 y am e2 Hb Hdet)
          as (w' & Hc & _ & Hi & Hn & Hs & Hm).
        { right. split; [now exists inl | exact E2]. }
        rewrite Hc. simpl. split; [now left | now split].
    + destruct (@commit_index_raises B w0 y am e1 Hb Hdet)
        as (w' & Hc & _ & Hi & Hn & Hs & Hm).
      { now left. }
      rewrite Hc. simpl. split; [now left | now split].
  - assert (He : e = ValueError \/ e = MemoryError \/
                 (e <> ValueError /\ e <> MemoryError)).
    { destruct e; auto; right; right; split; discriminate. }
    destruct He as [He | [He | [Hv Hm]]].
    + destruct (@commit_caught B w0 e Hb Hdet)
        as (w' & Hc & Ho & Hi & Hn & Hs & Hme & _); [now left|].
      rewrite Hc, Ho. simpl. subst e. split; [now right | now split].
    + destruct (@commit_caught B w0 e Hb Hdet)
        as (w' & Hc & Ho & Hi & Hn & Hs & Hme & _); [now right|].
      rewrite Hc, Ho. simpl. subst e. split; [now left | now split].
    + destruct (commit_uncaught _ Hb Hdet Hv Hm)
        as (w' & Hc & _ & Hi & Hn & Hs & Hme & _).
      rewrite Hc. simpl. split; [now left | now split].
Qed.

(** One event keeps the invariant, with the flag of the latest run. *)
Lemma handle_inv (ev : Event) (w : OWOutliers) (ok : bool) :
  widget_inv ok w ->
  widget_inv (if is_run ev then run_succeeded ev w else ok)
    (snd (handle ev w)).
Proof.
  intros Hinv.
  destruct (is_run ev) eqn:Hrun.
  - unfold run_succeeded. rewrite Hrun. simpl andb.
    destruct ev; try discriminate; simpl handle.
    + destruct (set_data_commit d w) as (w0 & -> & _ & _ & _ & Hm & _).
      apply commit_inv. rewrite Hm. now left.
    + apply commit_inv. apply Hinv.
  - destruct (handle_control ev w Hrun) as (f & ->).
    destruct Hinv as [Hex Hok]. split; [exact Hex|].
    destruct ok; exact Hok.
Qed.

Lemma exec_inv (evs : list Event) :
  forall (w : OWOutliers) (ok : bool),
    widget_inv ok w ->
    widget_inv (last_run_succeeded evs w ok) (exec evs w).
Proof.
  induction evs as [|ev evs IH]; intros w ok Hinv; simpl; [exact Hinv|].
  apply IH. now apply handle_inv.
Qed.

Lemma init_inv (s : Settings) : widget_inv false (init s).
Proof. split; [now left | now split]. Qed.

(** Once the covariance group is disabled and the one-class SVM is
    selected, they stay so until the next table arrives. *)
Lemma guard_stable (evs : list Event) :
  forall w : OWOutliers,
    forallb (fun ev => negb (is_input ev)) evs = true ->
    controls w = MkControls false false false false false ->
    outlier_method (settings w) = OneClassSVM ->
    controls (exec evs w) = MkControls false false false false false /\
    outlier_method (settings (exec evs w)) = OneClassSVM.
Proof.
  induction evs as [|ev evs IH]; intros w Hevs Hc Hm; simpl; [now split|].
  simpl in Hevs. apply andb_prop in Hevs as [Hev Hevs].
  apply IH; [exact Hevs | |];
    destruct ev; try discriminate; simpl;
    unfold when_enabled, nu_changed, gamma_changed; py_unfold; simpl;
    rewrite ?Hc; simpl; auto;
    pose proof (commit_frame w) as (Hs' & _ & Hc' & _);
    simpl in Hs', Hc'; congruence.
Qed.

End Invariant.

(** C2, as the code has it.  When a table arrives that has at least one row
    and more than 1500 attributes, the method becomes the one-class SVM, the
    five controls of the covariance group are disabled and the warning is
    shown; whatever the user then does with the controls or the button, the
    group stays disabled and the method stays the one-class SVM.  When the
    table has no row, or at most 1500 attributes, the five controls are
    enabled and the warning is not shown. *)
Theorem feature_guard (B : Backend) (w : OWOutliers) (t : Table) :
  let w' := snd (set_data (Some t) w) in
  if (0 <? Table_len t) && (1500 <? length (attributes (domain t))) then
    outlier_method (settings w') = OneClassSVM /\
    controls w' = MkControls false false false false false /\
    Warning_disabled_cov (messages w') = true /\
    (forall evs,
       forallb (fun ev => negb (is_input ev)) evs = true ->
       controls (exec evs w') = MkControls false false false false false /\
       outlier_method (settings (exec evs w')) = OneClassSVM)
  else
    controls w' = MkControls true true true true true /\
    Warning_disabled_cov (messages w') = false.
Proof.
  intros w'.
  assert (Hg : too_many_features (Some t) =
               (0 <? Table_len t) && (1500 <? length (attributes (domain t)))).
  { unfold too_many_features, Table_bool, MAX_FEATURES.
    now destruct (Table_len t). }
  rewrite <- Hg.
  destruct (set_data_commit (Some t) w) as (w0 & Hc & _ & Hs & Hctl & Hm & _).
  pose proof (commit_frame w0) as Hframe. cbv zeta in Hframe.
  rewrite <- Hc in Hframe. fold w' in Hframe.
  destruct Hframe as (Hs' & _ & Hctl' & _ & Hw').
  rewrite Hs in Hs'. rewrite Hctl in Hctl'. rewrite Hm in Hw'.
  cbn [Warning_disabled_cov] in Hw'.
  destruct (too_many_features (Some t)) eqn:E.
  - assert (Hmeth : outlier_method (settings w') = OneClassSVM)
      by now rewrite Hs'.
    repeat split; auto; now apply guard_stable.
  - now split.
Qed.

(** C2 fails as stated: a table with 1501 attributes and no row leaves the
    covariance estimator selected, its controls enabled and the warning
    off. *)
Lemma feature_guard_skips_empty_table :
  1500 < length (attributes (domain wide_empty_table)) /\
  let w' := snd (@set_data sample_backend (Some wide_empty_table)
                   (init covariance_settings)) in
  outlier_method (settings w') = Covariance /\
  controls w' = MkControls true true true true true /\
  Warning_disabled_cov (messages w') = false.
Proof.
  split.
  - apply Nat.ltb_lt. vm_compute. reflexivity.
  - vm_compute. now repeat split.
Qed.

(** C8. [send_report] reports nothing as long as the most recent run did not
    succeed: in a new widget, after a run without data, after a run that
    failed.  When the most recent run succeeded it reports, under "Data", the
    number of rows of the input and the sizes of the two published tables
    and, under "Detection", the method selected at that moment with its
    parameters: [nu] and [gamma] for the one-class SVM, [cont] and
    [support_fraction] for the covariance estimator. *)
Theorem send_report_after_runs (B : Backend) (s : Settings) (evs : list Event) :
  let w := exec evs (init s) in
  if last_run_succeeded evs (init s) false then
    exists d inl outl,
      data w = Some d /\
      outputs w = MkOutputs (Some inl) (Some outl) /\
      send_report w =
        Ok [ ("Data"%string,
              [ ("Input instances"%string, RCount (Table_len d));
                ("Inliers"%string, RCount (Table_len inl));
                ("Outliers"%string, RCount (Table_len outl)) ]);
             ("Detection"%string,
              if (outlier_method (settings w) =? OneClassSVM)%Z then
                [ ("Detection method"%string,
                   RStr "One class SVM with non-linear kernel (RBF)");
                  ("Regularization (nu)"%string, RInt (nu (settings w)));
                  ("Kernel coefficient"%string, RFloat (gamma (settings w))) ]
              else
                [ ("Detection method"%string, RStr "Covariance estimator");
                  ("Contamination"%string, RInt (cont (settings w)));
                  ("Support fraction"%string,
                   RFloat (support_fraction (settings w))) ]) ]
  else send_report w = Ok [].
Proof.
  intros w.
  pose proof (exec_inv evs (init_inv s)) as [_ Hinv]. fold w in Hinv.
  destruct (last_run_succeeded evs (init s) false).
  - destruct Hinv as (d & inl & outl & Hd & Ho & Hi & Hn & _).
    exists d, inl, outl. repeat split; auto.
    unfold send_report. rewrite Hd, Hi, Hn. unfold OneClassSVM.
    now destruct (outlier_method (settings w) =? 0)%Z.
  - destruct Hinv as [Hi Hn]. unfold send_report. now rewrite Hn.
Qed.

(** C10. A run clears both errors before it fits: started with any errors
    shown, it ends as if started with none.  Hence, after any sequence of
    events, at most one of the two errors is shown, and when the most
    recent run succeeded neither is. *)
Theorem errors_are_exclusive (B : Backend) (s : Settings) (evs : list Event)
  (w0 : OWOutliers) (b1 b2 : bool) :
  let w := exec evs (init s) in
  _get_outliers
    (with_messages (fun m => MkMessages (Warning_disabled_cov m) b1 b2) w0) =
  _get_outliers
    (with_messages (fun m => MkMessages (Warning_disabled_cov m) false false) w0)
  /\
  if last_run_succeeded evs (init s) false then
    Error_singular_cov (messages w) = false /\
    Error_memory_error (messages w) = false
  else
    Error_singular_cov (messages w) = false \/
    Error_memory_error (messages w) = false.
Proof.
  intros w. split; [reflexivity|].
  pose proof (exec_inv evs (init_inv s)) as [Hex Hinv]. fold w in Hex, Hinv.
  destruct (last_run_succeeded evs (init s) false); [|exact Hex].
  destruct Hinv as (d & inl & outl & _ & _ & _ & _ & Hs & Hm). now split.
Qed.

(* ================================================================== *)
(** ** Further properties: counts and rows of the published tables *)

Lemma rows_labelled_length (A : Type) (v : Z) (y : list Z) :
  forall a : list A,
    length y <= length a ->
    length (rows_labelled y v a) = count_occ Z.eq_dec y v.
Proof.
  induction y as [|l y IH]; intros a H.
  { unfold rows_labelled. now rewrite combine_nil. }
  destruct a as [|r a]; [simpl in H; lia|].
  rewrite rows_labelled_cons. simpl in H. simpl count_occ.
  destruct (Z.eq_dec l v) as [->|Hne].
  - rewrite Z.eqb_refl. simpl. f_equal. apply IH. lia.
  - apply Z.eqb_neq in Hne. rewrite Hne. apply IH. lia.
Qed.

Lemma rows_labelled_map (A C : Type) (f : A -> C) (v : Z) (y : list Z) :
  forall a : list A,
    rows_labelled y v (map f a) = map f (rows_labelled y v a).
Proof.
  induction y as [|l y IH]; intros a.
  - unfold rows_labelled. now rewrite !combine_nil.
  - destruct a as [|r a]; [reflexivity|].
    simpl map at 1. rewrite !rows_labelled_cons.
    destruct (l =? v)%Z; simpl; now rewrite IH.
Qed.

(** When every label is [v], selecting [v] keeps the array. *)
Lemma rows_labelled_all (A : Type) (v : Z) (y : list Z) :
  Forall (fun l => l = v) y ->
  forall a : list A, length a <= length y -> rows_labelled y v a = a.
Proof.
  induction 1 as [|l y Hl Hy IH]; intros a H.
  - destruct a; [reflexivity | simpl in H; lia].
  - destruct a as [|r a]; [reflexivity|].
    rewrite rows_labelled_cons, Hl, Z.eqb_refl. f_equal.
    apply IH. simpl in H. lia.
Qed.

(** When no label is [v], selecting [v] keeps nothing. *)
Lemma rows_labelled_none (A : Type) (v : Z) (y : list Z) :
  Forall (fun l => l <> v) y ->
  forall a : list A, rows_labelled y v a = [].
Proof.
  induction 1 as [|l y Hl Hy IH]; intros a.
  { unfold rows_labelled. now rewrite combine_nil. }
  destruct a as [|r a]; [reflexivity|].
  rewrite rows_labelled_cons. apply Z.eqb_neq in Hl. rewrite Hl. apply IH.
Qed.

Lemma label_counts (y : list Z) :
  count_occ Z.eq_dec y 1%Z + count_occ Z.eq_dec y (-1)%Z <= length y /\
  (count_occ Z.eq_dec y 1%Z + count_occ Z.eq_dec y (-1)%Z = length y <->
   Forall (fun l => l = 1%Z \/ l = (-1)%Z) y).
Proof.
  induction y as [|l y [IHle [IH1 IH2]]]; [split; [simpl; lia | split; auto]|].
  simpl count_occ. simpl length.
  destruct (Z.eq_dec l 1) as [E1|N1]; destruct (Z.eq_dec l (-1)) as [E2|N2];
    try (subst; discriminate);
    (split; [lia|]); split; intros H.
  - constructor; [now left | apply IH1; lia].
  - apply Forall_cons_iff in H as [_ H]. apply IH2 in H. lia.
  - constructor; [now right | apply IH1; lia].
  - apply Forall_cons_iff in H as [_ H]. apply IH2 in H. lia.
  - lia.
  - apply Forall_cons_iff in H as [[H|H] _]; contradiction.
Qed.

Section Published.
Context {B : Backend}.

(** With a [transform] that keeps its contract, the augmented table has the
    features, the targets, the attributes and the class variables of the
    input. *)
Lemma amended_data_keeps (model : Model) (w : OWOutliers) (d am : Table) :
  transform_contract B ->
  data w = Some d ->
  fst (amended_data model w) = Ok am ->
  X am = X d /\ Y am = Y d /\
  attributes (domain am) = attributes (domain d) /\
  class_vars (domain am) = class_vars (domain d).
Proof.
  intros Ht Hd H.
  destruct (amended_data_inv _ _ Hd H) as [[_ ->] | [_ Hc]].
  - now repeat split.
  - destruct Hc as (mahal & t' & _ & _ & _ & Htr & ->).
    destruct (Ht _ _ _ Htr eq_refl eq_refl) as (Hdom & Hx & Hy).
    simpl. rewrite Hdom. now repeat split.
Qed.

(** A detection that returned a label for every row of a well-formed table
    is published: what [commit] leaves behind. *)
Lemma run_publishes (w : OWOutliers) (d : Table) (y : list Z) (am : Table) :
  transform_contract B -> Table_wf d ->
  data w = Some d -> Table_len d <> 0 ->
  fst (detect_outliers w) = Ok (y, am) ->
  length y = Table_len d ->
  Table_wf am /\ Table_len am = Table_len d /\
  exists w',
    commit w = (Ok tt, w') /\
    outputs w' =
      MkOutputs (Some (Table_labelled y 1 am)) (Some (Table_labelled y (-1) am)) /\
    n_inliers w' = Some (count_occ Z.eq_dec y 1%Z) /\
    n_outliers w' = Some (count_occ Z.eq_dec y (-1)%Z) /\
    output_summary w' =
      (if count_occ Z.eq_dec y 1%Z =? 0 then NoOutput
       else Count (count_occ Z.eq_dec y 1%Z)).
Proof.
  intros Ht Hwf Hd Hlen Hdet Hy.
  destruct (detect_outliers_inv _ Hd Hdet) as (model & _ & _ & Ham).
  destruct (@amended_data_wf B model w d am Ht Hwf Hd Ham) as [Hwa Hal].
  split; [exact Hwa|]. split; [exact Hal|].
  destruct Hwa as [HwY HwM]. unfold Table_len in *.
  assert (Hg : forall v, Table_getitem am (np_where_eq y v)
                         = Ok (Table_labelled y v am)).
  { intros v. apply Table_getitem_where; lia. }
  destruct (@commit_published B w d y am _ _ Hd Hlen Hdet (Hg 1%Z) (Hg (-1)%Z))
    as (w' & Hc & Ho & Hi & Hn & _ & _ & Hsum & _).
  exists w'. unfold Table_len, Table_labelled in Hi, Hn, Hsum. simpl in Hi, Hn, Hsum.
  rewrite rows_labelled_length in Hi, Hn, Hsum by lia.
  now repeat split.
Qed.

End Published.

(** X1. After a run that returned a label for every row, the count of
    inliers is the number of labels +1 and the count of outliers the number
    of labels -1.  Together they never exceed the number of input rows, and
    they add up to it exactly when every label is +1 or -1: a row with any
    other label is in neither count. *)
Theorem run_counts_labels (B : Backend) (w : OWOutliers) (d : Table)
  (y : list Z) (amended : Table) :
  transform_contract B -> Table_wf d ->
  data w = Some d -> Table_len d <> 0 ->
  fst (detect_outliers w) = Ok (y, amended) ->
  length y = Table_len d ->
  exists n_in n_out w',
    commit w = (Ok tt, w') /\
    n_inliers w' = Some n_in /\ n_outliers w' = Some n_out /\
    n_in = count_occ Z.eq_dec y 1%Z /\
    n_out = count_occ Z.eq_dec y (-1)%Z /\
    n_in + n_out <= Table_len d /\
    (n_in + n_out = Table_len d <->
     Forall (fun l => l = 1%Z \/ l = (-1)%Z) y).
Proof.
  intros Ht Hwf Hd Hlen Hdet Hy.
  destruct (@run_publishes B w d y amended Ht Hwf Hd Hlen Hdet Hy)
    as (_ & _ & w' & Hc & _ & Hi & Hn & _).
  destruct (label_counts y) as [Hle Heq].
  exists (count_occ Z.eq_dec y 1%Z), (count_occ Z.eq_dec y (-1)%Z), w'.
  rewrite <- Hy. repeat (split; [assumption || reflexivity|]). exact Heq.
Qed.

Lemma run_counts_labels_witness :
  exists w',
    @commit sample_backend (loaded default_settings sample_table) = (Ok tt, w') /\
    n_inliers w' = Some 2 /\ n_outliers w' = Some 1.
Proof.
  destruct (@run_counts_labels sample_backend
              (loaded default_settings sample_table) sample_table
              [1; -1; 1]%Z sample_table)
    as (n_in & n_out & w' & Hc & Hi & Hn & -> & -> & _).
  - exact sample_transform_contract.
  - split; reflexivity.
  - reflexivity.
  - vm_compute; lia.
  - vm_compute; reflexivity.
  - reflexivity.
  - exists w'. now repeat split.
Defined.

(** X2. Whichever method ran, and whatever the labels are, the published
    rows are the input rows: the inliers hold the features and targets of
    the input rows labelled +1 and the outliers those of the rows labelled
    -1, in input order and under the attributes and class variables of the
    input.  When every label is +1 or -1, the two tables together hold each
    input row once. *)
Theorem outputs_keep_input_rows (B : Backend) (w : OWOutliers) (d : Table)
  (y : list Z) (amended : Table) :
  transform_contract B -> Table_wf d ->
  data w = Some d -> Table_len d <> 0 ->
  fst (detect_outliers w) = Ok (y, amended) ->
  length y = Table_len d ->
  exists inl outl w',
    commit w = (Ok tt, w') /\
    outputs w' = MkOutputs (Some inl) (Some outl) /\
    (attributes (domain inl) = attributes (domain d) /\
     class_vars (domain inl) = class_vars (domain d)) /\
    (attributes (domain outl) = attributes (domain d) /\
     class_vars (domain outl) = class_vars (domain d)) /\
    (X inl = rows_labelled y 1 (X d) /\ Y inl = rows_labelled y 1 (Y d)) /\
    (X outl = rows_labelled y (-1) (X d) /\ Y outl = rows_labelled y (-1) (Y d)) /\
    (Forall (fun l => l = 1%Z \/ l = (-1)%Z) y ->
     Permutation (combine (X inl) (Y inl) ++ combine (X outl) (Y outl))
       (combine (X d) (Y d))).
Proof.
  intros Ht Hwf Hd Hlen Hdet Hy.
  destruct (detect_outliers_inv _ Hd Hdet) as (model & _ & _ & Ham).
  destruct (@amended_data_keeps B model w d amended Ht Hd Ham)
    as (Hx & Hyy & Hattr & Hcls).
  destruct (@run_publishes B w d y amended Ht Hwf Hd Hlen Hdet Hy)
    as (_ & _ & w' & Hc & Ho & _).
  exists (Table_labelled y 1 amended), (Table_labelled y (-1) amended), w'.
  split; [exact Hc|]. split; [exact Ho|].
  unfold Table_labelled; simpl. rewrite Hx, Hyy.
  repeat (split; [reflexivity || (split; assumption) || (split; reflexivity)|]).
  intros Hlab.
  rewrite <- !rows_labelled_combine.
  apply rows_labelled_partition; [exact Hlab|].
  destruct Hwf as [HwY _]. unfold Table_len in Hy.
  rewrite length_combine. lia.
Qed.

Lemma outputs_keep_input_rows_witness :
  exists inl outl w',
    @commit sample_backend (loaded covariance_settings sample_table)
      = (Ok tt, w') /\
    outputs w' = MkOutputs (Some inl) (Some outl) /\
    X inl = [[1; 2]; [2; 2]]%Q /\ X outl = [[50; 3]]%Q /\
    Permutation (combine (X inl) (Y inl) ++ combine (X outl) (Y outl))
      (combine (X sample_table) (Y sample_table)).
Proof.
  destruct (@outputs_keep_input_rows sample_backend
              (loaded covariance_settings sample_table) sample_table
              [1; -1; 1]%Z sample_amended)
    as (inl & outl & w' & Hc & Ho & _ & _ & [Hxi Hyi] & [Hxo Hyo] & Hperm).
  - exact sample_transform_contract.
  - split; reflexivity.
  - reflexivity.
  - vm_compute; lia.
  - vm_compute; reflexivity.
  - reflexivity.
  - exists inl, outl, w'.
    split; [exact Hc|]. split; [exact Ho|].
    split; [rewrite Hxi; reflexivity|]. split; [rewrite Hxo; reflexivity|].
    apply Hperm.
    repeat first [ apply Forall_nil
                 | apply Forall_cons;
                   [(left; reflexivity) || (right; reflexivity)|] ].
Defined.

(** X3. A run that labels every row -1 still publishes both tables: the
    inliers table is sent empty, not as [None], and the outliers table is
    the whole augmented table.  The counts are 0 and the number of rows, but
    the output summary, which only looks at the inliers, is "no output". *)
Theorem run_without_inliers (B : Backend) (w : OWOutliers) (d : Table)
  (y : list Z) (amended : Table) :
  transform_contract B -> Table_wf d ->
  data w = Some d -> Table_len d <> 0 ->
  fst (detect_outliers w) = Ok (y, amended) ->
  length y = Table_len d ->
  Forall (fun l => l = (-1)%Z) y ->
  exists w',
    commit w = (Ok tt, w') /\
    Outputs_inliers (outputs w') =
      Some {| domain := domain amended; X := []; Y := []; Table_metas := [] |} /\
    Outputs_outliers (outputs w') = Some amended /\
    n_inliers w' = Some 0 /\
    n_outliers w' = Some (Table_len d) /\
    output_summary w' = NoOutput.
Proof.
  intros Ht Hwf Hd Hlen Hdet Hy Hall.
  destruct (@run_publishes B w d y amended Ht Hwf Hd Hlen Hdet Hy)
    as ([HwY HwM] & Hal & w' & Hc & Ho & Hi & Hn & Hsum).
  assert (Hnot : Forall (fun l => l <> 1%Z) y).
  { eapply Forall_impl; [|exact Hall]. simpl. intros l ->. discriminate. }
  assert (H0 : count_occ Z.eq_dec y 1%Z = 0).
  { rewrite <- (@rows_labelled_length _ 1%Z y (X amended))
      by (unfold Table_len in *; lia).
    now rewrite rows_labelled_none. }
  assert (Hn' : count_occ Z.eq_dec y (-1)%Z = Table_len d).
  { rewrite <- (@rows_labelled_length _ (-1)%Z y (X amended))
      by (unfold Table_len in *; lia).
    rewrite rows_labelled_all; [exact Hal | exact Hall |].
    unfold Table_len in *; lia. }
  exists w'. rewrite Ho, Hi, Hn, Hsum, H0, Hn'. simpl.
  unfold Table_labelled. rewrite !rows_labelled_none by exact Hnot.
  rewrite !rows_labelled_all by (try exact Hall; unfold Table_len in *; lia).
  repeat split; [exact Hc | now destruct amended].
Qed.

Lemma run_without_inliers_witness :
  exists w',
    @commit sample_backend (loaded default_settings far_table) = (Ok tt, w') /\
    Outputs_outliers (outputs w') = Some far_table /\
    n_inliers w' = Some 0 /\ n_outliers w' = Some 2 /\
    output_summary w' = NoOutput.
Proof.
  destruct (@run_without_inliers sample_backend
              (loaded default_settings far_table) far_table
              [-1; -1]%Z far_table)
    as (w' & Hc & _ & Ho & Hi & Hn & Hsum).
  - exact sample_transform_contract.
  - split; reflexivity.
  - reflexivity.
  - vm_compute; lia.
  - vm_compute; reflexivity.
  - reflexivity.
  - repeat constructor.
  - exists w'. now repeat split.
Defined.

(** X4. After a run with the Covariance method every published row carries
    its own distance: the metas of the inliers are the metas of the input
    rows labelled +1, each followed by the distance the fitted model gave
    that row, and likewise for the outliers with -1; both tables have the
    "Mahalanobis" variable as their last meta. *)
Theorem covariance_rows_carry_distance (B : Backend) (w : OWOutliers)
  (d : Table) (y : list Z) (amended : Table) :
  transform_contract B -> Table_wf d ->
  data w = Some d -> Table_len d <> 0 ->
  outlier_method (settings w) = Covariance ->
  fst (detect_outliers w) = Ok (y, amended) ->
  length y = Table_len d ->
  exists model mahal inl outl w',
    learner_call (make_learner (settings w)) d = Ok model /\
    model_mahalanobis model (X d) = Ok mahal /\
    commit w = (Ok tt, w') /\
    outputs w' = MkOutputs (Some inl) (Some outl) /\
    metas (domain inl) =
      metas (domain d) ++ [ContinuousVariable "Mahalanobis"] /\
    metas (domain outl) =
      metas (domain d) ++ [ContinuousVariable "Mahalanobis"] /\
    Table_metas inl =
      map (fun p => fst p ++ [CNum (snd p)])
        (combine (rows_labelled y 1 (Table_metas d)) (rows_labelled y 1 mahal)) /\
    Table_metas outl =
      map (fun p => fst p ++ [CNum (snd p)])
        (combine (rows_labelled y (-1) (Table_metas d))
           (rows_labelled y (-1) mahal)).
Proof.
  intros Ht Hwf Hd Hlen Hm Hdet Hy.
  destruct (detect_outliers_inv _ Hd Hdet) as (model & Hfit & _ & Ham).
  destruct (amended_data_inv _ _ Hd Ham) as [[Hne _] | [_ Hc]];
    [contradiction|].
  destruct Hc as (mahal & t' & Hmah & _ & _ & Htr & Heq).
  destruct (Ht _ _ _ Htr eq_refl eq_refl) as (Hdom & _ & _).
  destruct (@run_publishes B w d y amended Ht Hwf Hd Hlen Hdet Hy)
    as (_ & _ & w' & Hc & Ho & _).
  exists model, mahal, (Table_labelled y 1 amended),
    (Table_labelled y (-1) amended), w'.
  do 4 (split; [assumption|]).
  subst amended. unfold Table_labelled. simpl. rewrite Hdom. simpl.
  rewrite !rows_labelled_map, !rows_labelled_combine.
  now repeat split.
Qed.

Lemma covariance_rows_carry_distance_witness :
  exists inl outl w',
    @commit sample_backend (loaded covariance_settings sample_table)
      = (Ok tt, w') /\
    outputs w' = MkOutputs (Some inl) (Some outl) /\
    Table_metas inl = [[CStr "p"; CNum 1]; [CStr "r"; CNum 2]] /\
    Table_metas outl = [[CStr "q"; CNum 50]].
Proof.
  destruct (@covariance_rows_carry_distance sample_backend
              (loaded covariance_settings sample_table) sample_table
              [1; -1; 1]%Z sample_amended)
    as (model & mahal & inl & outl & w' & _ & Hmah & Hc & Ho & _ & _ & Hi & Hn).
  - exact sample_transform_contract.
  - split; reflexivity.
  - reflexivity.
  - vm_compute; lia.
  - reflexivity.
  - vm_compute; reflexivity.
  - reflexivity.
  - exists inl, outl, w'. simpl in Hmah. inversion Hmah; subst mahal.
    rewrite Hi, Hn. now repeat split.
Defined.

(* ================================================================== *)
(** ** Further properties: the widget over sequences of events *)

Section Sequences.
Context {B : Backend}.

(** What [set_data] leaves in the fields that [commit] does not touch. *)
Lemma set_data_state (d : option Table) (w : OWOutliers) :
  let w' := snd (set_data d w) in
  data w' = d /\
  settings w' =
    (if too_many_features d
     then with_outlier_method OneClassSVM (settings w) else settings w) /\
  controls w' =
    (if too_many_features d then MkControls false false false false false
     else MkControls true true true true true) /\
  Warning_disabled_cov (messages w') = too_many_features d.
Proof.
  destruct (set_data_commit d w) as (w0 & Hc & Hd & Hs & Hctl & Hm & _).
  pose proof (commit_frame w0) as Hframe. cbv zeta in *.
  rewrite <- Hc in Hframe.
  destruct Hframe as (Hs' & Hd' & Hctl' & _ & Hw').
  rewrite Hs', Hd', Hctl', Hw', Hm. now repeat split.
Qed.

(** A run adds one learner invocation, on the table held, with the learner
    of the settings held; without a table with rows it adds none. *)
Lemma commit_fit_log (w : OWOutliers) :
  fit_log (snd (commit w)) = fit_log w \/
  exists d,
    data w = Some d /\ Table_len d <> 0 /\
    fit_log (snd (commit w)) = fit_log w ++ [(make_learner (settings w), d)].
Proof.
  destruct (Table_bool (data w)) eqn:Hb.
  2:{ left. destruct (commit_no_run _ Hb) as (w' & Hc & _ & _ & _ & _ & _ & Hl).
      now rewrite Hc. }
  right. destruct (Table_bool_inv _ Hb) as (d & Hd & Hlen).
  exists d. split; [exact Hd|]. split; [exact Hlen|].
  unfold commit, _get_outliers; py_unfold.
  cbn [fst snd data with_n_inliers with_n_outliers with_messages].
  rewrite Hb, (@detect_outliers_at B w _) by reflexivity. rewrite Hd.
  destruct (fst (detect_outliers w)) as [[y am]|e]; cbn [fst snd].
  - destruct (Table_getitem am (np_where_eq y 1));
      destruct (Table_getitem am (np_where_eq y (-1))); reflexivity.
  - destruct e; reflexivity.
Qed.

(** The same for any event, in terms of the widget it leaves. *)
Lemma handle_fit_log (ev : Event) (w : OWOutliers) :
  let w' := snd (handle ev w) in
  fit_log w' = fit_log w \/
  exists d,
    data w' = Some d /\ Table_len d <> 0 /\
    fit_log w' = fit_log w ++ [(make_learner (settings w'), d)].
Proof.
  cbv zeta.
  destruct (is_run ev) eqn:Hrun.
  - destruct ev; try discriminate; simpl handle.
    + destruct (set_data_commit d w) as (w0 & -> & _ & _ & _ & _ & _ & _ & Hl).
      pose proof (commit_frame w0) as (Hs & Hd & _). cbv zeta in Hs, Hd.
      rewrite Hs, Hd, <- Hl. apply commit_fit_log.
    + pose proof (commit_frame w) as (Hs & Hd & _). cbv zeta in Hs, Hd.
      rewrite Hs, Hd. apply commit_fit_log.
  - destruct (handle_control ev w Hrun) as (f & ->). now left.
Qed.

(** One event keeps the guard in step with the table. *)
Lemma handle_guard_inv (ev : Event) (w : OWOutliers) :
  guard_inv w -> guard_inv (snd (handle ev w)).
Proof.
  intros (Hctl & Hwarn & Hmeth & Herr).
  destruct (is_run ev) eqn:Hrun.
  - destruct ev; try discriminate; simpl handle.
    + pose proof (set_data_state d w) as (Hd & Hs & Hc & Hw). cbv zeta in *.
      unfold guard_inv. rewrite Hd, Hs, Hc, Hw.
      split; [reflexivity|]. split; [reflexivity|]. split.
      * now intros ->.
      * intros Hb.
        destruct (set_data_commit d w) as (w0 & Hc0 & Hd0 & _ & _ & Hm0 & _).
        rewrite <- Hd0 in Hb.
        destruct (commit_no_run _ Hb) as (w' & Hc' & _ & _ & _ & Hm' & _).
        rewrite Hc0, Hc'. simpl. rewrite Hm', Hm0. now split.
    + pose proof (commit_frame w) as (Hs & Hd & Hc & _ & Hw). cbv zeta in *.
      unfold guard_inv. rewrite Hs, Hd, Hc, Hw.
      split; [exact Hctl|]. split; [exact Hwarn|]. split; [exact Hmeth|].
      intros Hb.
      destruct (commit_no_run _ Hb) as (w' & Hc' & _ & _ & _ & Hm' & _).
      rewrite Hc'. simpl. rewrite Hm'. now apply Herr.
  - assert (Hni : forallb (fun e => negb (is_input e)) [ev] = true).
    { destruct ev; try discriminate; reflexivity. }
    pose proof (@guard_stable B [ev] w Hni) as Hstable. simpl exec in Hstable.
    destruct (handle_control ev w Hrun) as (f & Hf). rewrite Hf in *.
    simpl snd in *. unfold guard_inv. simpl.
    split; [exact Hctl|]. split; [exact Hwarn|]. split; [|exact Herr].
    intros Hwide. rewrite Hwide in Hctl.
    now apply Hstable; [exact Hctl | apply Hmeth].
Qed.

Lemma init_guard_inv (s : Settings) : guard_inv (init s).
Proof. unfold guard_inv. simpl. repeat split; auto; discriminate. Qed.

Lemma exec_guard_inv (evs : list Event) :
  forall w, guard_inv w -> guard_inv (exec evs w).
Proof.
  induction evs as [|ev evs IH]; intros w H; simpl; [exact H|].
  apply IH. now apply handle_guard_inv.
Qed.

End Sequences.

Lemma percent_in_unit (z : Z) :
  (0 <= z <= 100)%Z ->
  (0 <= inject_Z z / 100 /\ inject_Z z / 100 <= 1)%Q.
Proof.
  intros H. unfold Qle, Qdiv, Qmult, Qinv, inject_Z. simpl. lia.
Qed.

Lemma percent_positive (z : Z) :
  (1 <= z)%Z -> (0 < inject_Z z / 100)%Q.
Proof.
  intros H. unfold Qlt, Qdiv, Qmult, Qinv, inject_Z. simpl. lia.
Qed.

(** Settings inside the ranges of the controls give a learner inside the
    ranges. *)
Lemma make_learner_in_range (B : Backend) (s : Settings) :
  settings_in_range s -> learner_in_range (make_learner s).
Proof.
  intros (Hnu & Hg & Hc & Hsf). unfold make_learner.
  destruct (outlier_method s =? OneClassSVM)%Z; simpl.
  - split; [exact Hg|]. split.
    + apply percent_positive; lia.
    + apply percent_in_unit; lia.
  - split; [apply percent_in_unit; exact Hc|].
    destruct (empirical_covariance s); [exact Hsf | exact I].
Qed.

(** An event with a value its control can show keeps the settings inside
    the ranges. *)
Lemma handle_settings_in_range (B : Backend) (ev : Event) (w : OWOutliers) :
  event_in_range ev ->
  settings_in_range (settings w) ->
  settings_in_range (settings (snd (handle ev w))).
Proof.
  intros Hev Hs.
  destruct ev; simpl handle.
  - pose proof (set_data_state d w) as (_ & Hs' & _). cbv zeta in Hs'.
    rewrite Hs'. now destruct (too_many_features d).
  - exact Hs.
  - unfold when_enabled; py_unfold; simpl.
    now destruct (rb_cov (controls w)).
  - destruct Hs as (_ & Hg & Hc & Hsf). simpl in Hev. now repeat split.
  - destruct Hs as (Hnu & _ & Hc & Hsf). simpl in Hev. now repeat split.
  - unfold when_enabled; py_unfold; simpl.
    destruct (cont_slider (controls w)); [|exact Hs].
    destruct Hs as (Hnu & Hg & _ & Hsf). simpl in Hev. now repeat split.
  - unfold when_enabled; py_unfold; simpl.
    now destruct (cb_emp_cov (controls w)).
  - unfold when_enabled; py_unfold; simpl.
    destruct (support_fraction_spin (controls w)); [|exact Hs].
    destruct Hs as (Hnu & Hg & Hc & _). simpl in Hev. now repeat split.
  - pose proof (commit_frame w) as (Hs' & _). cbv zeta in Hs'. now rewrite Hs'.
Qed.



(** X6. After any sequence of events on a new widget the guard is in step
    with the table the widget holds.  The five controls of the covariance
    group are all disabled when that table has a row and more than 1500
    attributes and all enabled otherwise; the warning is shown in exactly
    the first case, and the method is then the one-class SVM.  While the
    widget holds no table, or a table without rows, no error is shown. *)
Theorem guard_tracks_table (B : Backend) (s : Settings) (evs : list Event) :
  let w := exec evs (init s) in
  let wide :=
    match data w with
    | Some t => (0 <? Table_len t) && (1500 <? length (attributes (domain t)))
    | None => false
    end in
  controls w =
    (if wide then MkControls false false false false false
     else MkControls true true true true true) /\
  Warning_disabled_cov (messages w) = wide /\
  (if wide then outlier_method (settings w) = OneClassSVM else True) /\
  (if Table_bool (data w) then True
   else Error_singular_cov (messages w) = false /\
        Error_memory_error (messages w) = false).
Proof.
  intros w wide.
  pose proof (exec_guard_inv evs (init_guard_inv s)) as (Hc & Hw & Hm & He).
  fold w in Hc, Hw, Hm, He.
  assert (Hwide : too_many_features (data w) = wide).
  { unfold wide, too_many_features, Table_bool, MAX_FEATURES.
    destruct (data w) as [t|]; [|reflexivity]. now destruct (Table_len t). }
  rewrite Hwide in Hc, Hw, Hm.
  split; [exact Hc|]. split; [exact Hw|]. split.
  - destruct wide; [now apply Hm | exact I].
  - destruct (Table_bool (data w)); [exact I | now apply He].
Qed.

(** X7. Over any sequence of events on a new widget, no learner is ever
    fitted on a table without rows, and the covariance estimator is never
    fitted on a table with more than 1500 attributes. *)
Theorem covariance_never_fits_wide (B : Backend) (s : Settings)
  (evs : list Event) :
  Forall
    (fun lt : Learner * Table =>
       Table_len (snd lt) <> 0 /\
       forall sf c,
         fst lt = EllipticEnvelopeLearner sf c ->
         length (attributes (domain (snd lt))) <= 1500)
    (fit_log (exec evs (init s))).
Proof.
  change (Forall fit_allowed (fit_log (exec evs (init s)))).
  assert (Hgen : forall w, guard_inv w -> Forall fit_allowed (fit_log w) ->
                           Forall fit_allowed (fit_log (exec evs w))).
  { induction evs as [|ev evs IH]; intros w Hg Hl; simpl; [exact Hl|].
    pose proof (handle_guard_inv ev Hg) as Hg'.
    apply IH; [exact Hg'|].
    destruct (handle_fit_log ev w) as [-> | (d & Hd & Hlen & ->)]; [exact Hl|].
    apply Forall_app. split; [exact Hl|]. constructor; [|constructor].
    split; [exact Hlen|]. simpl. intros sf c Hlearner.
    destruct Hg' as (_ & _ & Hmeth & _). rewrite Hd in Hmeth.
    unfold make_learner in Hlearner.
    destruct (too_many_features (Some d)) eqn:Hwide.
    - rewrite (Hmeth eq_refl) in Hlearner. discriminate.
    - unfold too_many_features in Hwide.
      rewrite (@Table_bool_len d Hlen) in Hwide. simpl in Hwide.
      now apply Nat.ltb_ge. }
  apply Hgen; [apply init_guard_inv | constructor].
Qed.

(** X8. The controls never run a detection.  After any sequence of events
    that holds neither a table arrival nor a click on the button, the
    widget is the one before with other settings: the outputs, the counts,
    the messages and the learner log are those of the last run, even when
    the parameters they were computed with have changed since. *)
Theorem controls_do_not_rerun (B : Backend) (evs : list Event)
  (w : OWOutliers) :
  forallb (fun ev => negb (is_run ev)) evs = true ->
  exec evs w = with_settings (fun _ => settings (exec evs w)) w /\
  outputs (exec evs w) = outputs w /\
  n_inliers (exec evs w) = n_inliers w /\
  n_outliers (exec evs w) = n_outliers w /\
  messages (exec evs w) = messages w /\
  fit_log (exec evs w) = fit_log w.
Proof.
  intros Hevs.
  assert (Heq : exec evs w = with_settings (fun _ => settings (exec evs w)) w).
  { revert w Hevs. induction evs as [|ev evs IH]; intros w Hevs; simpl.
    - now destruct w.
    - simpl in Hevs. apply andb_prop in Hevs as [Hev Hevs].
      apply Bool.negb_true_iff in Hev.
      destruct (handle_control ev w Hev) as (f & ->). simpl snd.
      rewrite (IH _ Hevs) at 1. reflexivity. }
  split; [exact Heq|]. rewrite Heq. now repeat split.
Qed.

Lemma controls_do_not_rerun_witness :
  let w := snd (@set_data sample_backend (Some sample_table)
                  (init default_settings)) in
  let w' := @exec sample_backend [Move_cont_slider 40; Toggle_cb_emp_cov true] w in
  outlier_method (settings w') = Covariance /\
  outputs w' = outputs w /\ n_inliers w' = Some 2.
Proof.
  intros w w'.
  destruct (@controls_do_not_rerun sample_backend
              [Move_cont_slider 40; Toggle_cb_emp_cov true] w eq_refl)
    as (_ & Ho & Hi & _).
  fold w' in Ho, Hi. rewrite Hi.
  split; [vm_compute; reflexivity|]. split; [exact Ho|].
  vm_compute; reflexivity.
Defined.

(** X9. Every learner the widget fits has its keyword arguments inside the
    ranges the controls allow.  With stored settings inside the ranges and
    events whose values their controls can show, every fitted one-class SVM
    has [0 < nu <= 1] and [0.01 <= gamma <= 10], and every fitted covariance
    estimator has [0 <= contamination <= 1] and, when it is given one, a
    support fraction between 0.1 and 10. *)
Theorem fitted_learners_in_range (B : Backend) (s : Settings)
  (evs : list Event) :
  settings_in_range s ->
  Forall event_in_range evs ->
  Forall (fun lt : Learner * Table => learner_in_range (fst lt))
    (fit_log (exec evs (init s))).
Proof.
  intros Hs Hevs.
  assert (Hgen : forall w,
             settings_in_range (settings w) ->
             Forall (fun lt : Learner * Table => learner_in_range (fst lt))
               (fit_log w) ->
             Forall (fun lt : Learner * Table => learner_in_range (fst lt))
               (fit_log (exec evs w))).
  { induction Hevs as [|ev evs Hev Hevs IH]; intros w Hw Hl; simpl; [exact Hl|].
    pose proof (handle_settings_in_range B ev w Hev Hw) as Hw'.
    apply IH; [exact Hw'|].
    destruct (handle_fit_log ev w) as [-> | (d & _ & _ & ->)]; [exact Hl|].
    apply Forall_app. split; [exact Hl|]. constructor; [|constructor].
    simpl. now apply make_learner_in_range. }
  apply Hgen; [exact Hs | constructor].
Qed.

Lemma fitted_learners_in_range_witness :
  Forall (fun lt : Learner * Table => learner_in_range (fst lt))
    (fit_log
       (@exec sample_backend
          [Input_data (Some sample_table); Move_cont_slider 100; Click_detect]
          (init default_settings))).
Proof.
  apply fitted_learners_in_range.
  - unfold settings_in_range, default_settings, Qle; simpl. lia.
  - repeat constructor; simpl; lia.
Defined.

(* ================================================================== *)
(** ** Further properties: how far the exception handling reaches *)

Lemma where_from_nth (v : Z) (y : list Z) :
  forall k j, nth_error y j = Some v -> In (k + j) (where_from k y v).
Proof.
  induction y as [|l y IH]; intros k j H; [now destruct j|].
  destruct j as [|j]; simpl in H.
  - inversion H; subst. simpl. rewrite Z.eqb_refl, Nat.add_0_r. now left.
  - cbn [where_from].
    destruct (l =? v)%Z; [right|];
      replace (k + S j) with (S k + j) by lia; now apply IH.
Qed.

Lemma take_rows_raises (A : Type) (a : list A) (ind : list nat) (e : PyExn) :
  take_rows a ind = Raise e -> e = IndexError.
Proof.
  revert e; induction ind as [|i ind IH]; intros e H; simpl in H;
    [discriminate|].
  destruct (nth_error a i); [|now inversion H].
  destruct (take_rows a ind) as [rs|e']; simpl in H; [discriminate|].
  inversion H; subst. now apply IH.
Qed.

Lemma take_rows_in_range (A : Type) (a : list A) (ind : list nat)
  (r : list A) :
  take_rows a ind = Ok r -> forall i, In i ind -> i < length a.
Proof.
  revert r; induction ind as [|j ind IH]; intros r H i Hi; [contradiction|].
  simpl in H. destruct (nth_error a j) eqn:Ej; [|discriminate].
  destruct (take_rows a ind) as [rs|e] eqn:Et; simpl in H; [|discriminate].
  destruct Hi as [<- | Hi].
  - apply nth_error_Some. now rewrite Ej.
  - now apply (IH rs).
Qed.

(** Indexing a table by positions of which one is past its last row raises
    [IndexError]. *)
Lemma Table_getitem_past_end (t : Table) (ind : list nat) (i : nat) :
  In i ind -> Table_len t <= i -> Table_getitem t ind = Raise IndexError.
Proof.
  intros Hi Hlen. unfold Table_getitem, Table_len in *.
  destruct (take_rows (X t) ind) as [x|e] eqn:Ex; simpl.
  - pose proof (take_rows_in_range _ _ Ex i Hi). lia.
  - now rewrite (take_rows_raises _ _ Ex).
Qed.

Lemma Table_getitem_raises (t : Table) (ind : list nat) (e : PyExn) :
  Table_getitem t ind = Raise e -> e = IndexError.
Proof.
  unfold Table_getitem. intros H.
  destruct (take_rows (X t) ind) eqn:Ex; simpl in H;
    [|inversion H; subst; now apply (take_rows_raises _ _ Ex)].
  destruct (take_rows (Y t) ind) eqn:Ey; simpl in H;
    [|inversion H; subst; now apply (take_rows_raises _ _ Ey)].
  destruct (take_rows (Table_metas t) ind) eqn:Em; simpl in H;
    [discriminate|inversion H; subst; now apply (take_rows_raises _ _ Em)].
Qed.

(** X10. The [try] block covers the building of the augmented table.  When
    the fitted covariance model returns a number of distances that is not
    the number of rows, the [ValueError] of [reshape] is caught like a
    failed fit: the singular-covariance error is shown, [None] is sent on
    both outputs and the counts stay unknown. *)
Theorem distance_mismatch_is_reported (B : Backend) (w : OWOutliers)
  (d : Table) (model : Model) (y : list Z) (mahal : list Q) :
  data w = Some d -> Table_len d <> 0 ->
  outlier_method (settings w) = Covariance ->
  learner_call (make_learner (settings w)) d = Ok model ->
  model_call model d = Ok y ->
  model_mahalanobis model (X d) = Ok mahal ->
  length mahal <> Table_len d ->
  exists w',
    commit w = (Ok tt, w') /\
    Error_singular_cov (messages w') = true /\
    Error_memory_error (messages w') = false /\
    outputs w' = MkOutputs None None /\
    n_inliers w' = None /\ n_outliers w' = None.
Proof.
  intros Hd Hlen Hm Hfit Hpred Hmah Hne.
  assert (Hdet : fst (detect_outliers w) = Raise ValueError).
  { rewrite detect_outliers_value, Hd, Hfit. simpl. rewrite Hpred. simpl.
    unfold amended_data; py_unfold. simpl. rewrite Hd. simpl.
    rewrite Hm. simpl. rewrite Hmah. simpl.
    unfold np_reshape_column. apply Nat.eqb_neq in Hne. now rewrite Hne. }
  assert (Hb : Table_bool (data w) = true)
    by (rewrite Hd; now apply Table_bool_len).
  destruct (@commit_caught B w ValueError Hb Hdet)
    as (w' & Hc & Ho & Hi & Hn & Hs & Hme & _); [now left|].
  exists w'. now repeat split.
Qed.

Lemma distance_mismatch_is_reported_witness :
  exists w',
    @commit no_distance_backend (loaded covariance_settings sample_table)
      = (Ok tt, w') /\
    Error_singular_cov (messages w') = true /\
    outputs w' = MkOutputs None None.
Proof.
  destruct (@distance_mismatch_is_reported no_distance_backend
              (loaded covariance_settings sample_table) sample_table
              (EllipticEnvelopeLearner None (inject_Z 10 / 100)%Q)
              [1; -1; 1]%Z [])
    as (w' & Hc & Hs & _ & Ho & _).
  - reflexivity.
  - vm_compute; lia.
  - reflexivity.
  - reflexivity.
  - reflexivity.
  - reflexivity.
  - vm_compute; lia.
  - exists w'. now repeat split.
Defined.

(** X11. The [else] block is not covered by the handlers.  When the
    detection returns a label +1 or -1 for a position past the last row of
    the augmented table, the [IndexError] of the table indexing leaves
    [commit]: no error is shown, nothing is sent, so the outputs keep what
    the run before sent, and the counts are unknown. *)
Theorem label_past_the_end_raises (B : Backend) (w : OWOutliers)
  (y : list Z) (amended : Table) (i : nat) :
  Table_bool (data w) = true ->
  fst (detect_outliers w) = Ok (y, amended) ->
  Table_len amended <= i ->
  nth_error y i = Some 1%Z \/ nth_error y i = Some (-1)%Z ->
  exists w',
    commit w = (Raise IndexError, w') /\
    outputs w' = outputs w /\
    n_inliers w' = None /\ n_outliers w' = None /\
    Error_singular_cov (messages w') = false /\
    Error_memory_error (messages w') = false.
Proof.
  intros Hb Hdet Hlen Hlab.
  apply (@commit_index_raises B w y amended IndexError Hb Hdet).
  destruct Hlab as [H1 | H2].
  - left. apply (@Table_getitem_past_end amended _ i); [|exact Hlen].
    apply (@where_from_nth 1%Z y 0 i H1).
  - assert (Hout : Table_getitem amended (np_where_eq y (-1)) = Raise IndexError).
    { apply (@Table_getitem_past_end amended _ i); [|exact Hlen].
      apply (@where_from_nth (-1)%Z y 0 i H2). }
    destruct (Table_getitem amended (np_where_eq y 1)) as [inl|e] eqn:E1.
    + right. split; [now exists inl | exact Hout].
    + left. now rewrite (Table_getitem_raises _ _ E1).
Qed.

Lemma label_past_the_end_raises_witness :
  fst (@commit long_label_backend (loaded default_settings sample_table))
    = Raise IndexError.
Proof.
  destruct (@label_past_the_end_raises long_label_backend
              (loaded default_settings sample_table)
              [1; -1; 1; 1]%Z sample_table 3)
    as (w' & Hc & _).
  - reflexivity.
  - vm_compute; reflexivity.
  - vm_compute; lia.
  - left; reflexivity.
  - now rewrite Hc.
Defined.
